(** * pelican_ftp: a shallow embedding of [pelican_ftp.py]

    The script synchronises a Pelican output directory to an FTP server.
    Everything it does is sequencing of effects (local file system, FTP
    session, logging), so the embedding is a state-and-exception monad
    over an explicit [world]; the FTP server, [glob.glob], the rendering
    of the cutoff for the log and the clock are parameters of the
    development. *)

From Stdlib Require Import ZArith Lia Bool Ascii String.
From stdpp Require Import base strings list gmap pretty.

Local Open Scope string_scope.
Local Open Scope list_scope.
Local Open Scope stdpp_scope.
Local Open Scope Z_scope.

(** ** [posixpath]: the three path functions the script calls *)

Module posixpath.

(** [str.startswith] and [str.endswith]. *)
Definition startswith (s pre : string) : bool := String.prefix pre s.

Fixpoint endswith_sep (s : string) : bool :=
  match s with
  | EmptyString => false
  | String c EmptyString => Ascii.eqb c "/"%char
  | String _ r => endswith_sep r
  end.

(** One turn of the [for b in p] loop of [posixpath.join]. *)
Definition join_step (path b : string) : string :=
  if startswith b "/" then b
  else if String.eqb path "" || endswith_sep path then path +:+ b
  else path +:+ "/" +:+ b.

Definition join (a : string) (p : list string) : string :=
  foldl join_step a p.

(** [basename p = p[p.rfind('/') + 1:]]: the text after the last
    separator.  [after_last_sep acc p] walks [p] and keeps in [acc] the
    suffix that follows the most recent ['/']. *)
Fixpoint after_last_sep (acc p : string) : string :=
  match p with
  | EmptyString => acc
  | String c r =>
      if Ascii.eqb c "/"%char then after_last_sep r r else after_last_sep acc r
  end.

Definition basename (p : string) : string := after_last_sep p p.

Fixpoint has_sep (s : string) : bool :=
  match s with
  | EmptyString => false
  | String c r => Ascii.eqb c "/"%char || has_sep r
  end.

End posixpath.

(** ** Data

    Strings are Python [str] values; their characters have codes below
    256, so every one of them can be encoded for the wire. *)

(** The manifest, [SUB_PATHS]: (sub_path, file_spec, permissions). *)
Definition SUB_PATHS : list (string * string * Z) :=
  [ ("", "*.html", 664);
    ("author", "*.html", 664);
    ("category", "*.html", 664);
    ("feeds", "*.xml", 664);
    ("images", "*.jpg", 644);
    ("images", "*.jpeg", 644);
    ("images", "*.png", 644);
    ("images", "*.gif", 644);
    ("pages", "*.html", 664);
    ("tags", "*.html", 664);
    ("theme/css", "*.css", 644);
    ("theme/fonts", "*.otf", 644);
    ("theme/fonts", "*.ttf", 644);
    ("theme/images", "*.jpg", 644);
    ("theme/images", "*.png", 644);
    ("theme/js", "*.js", 644) ].

(** The private module [creds.py] is not part of the repository; its four
    constants are a record handed to the run. *)
Record creds := Creds {
  SERVER : string;
  USER : string;
  PSWRD : string;
  LAST_UPDATE_FILENAME : string
}.

(** A local file: modification time and binary content.  Times are
    integers, ticks of the clock since the epoch; they may be negative. *)
Record file := File { mtime : Z; content : list Byte.byte }.

Inductive level := DEBUG | INFO | WARNING | ERROR.

Definition level_no (l : level) : Z :=
  match l with DEBUG => 10 | INFO => 20 | WARNING => 30 | ERROR => 40 end.

(** The values [OptionParser.parse_args] hands back. *)
Record options := Options {
  opt_source_path : string;
  opt_remote_base : string;
  opt_force_update : bool;
  opt_log_level : option level
}.

(** Exceptions.  The three classes of [ftplib.all_errors]
    ([ftplib.Error], [OSError], [EOFError]), [SystemExit], and any other
    exception: the [ValueError] or [OverflowError] of
    [datetime.utcfromtimestamp], and the [ValueError] of [FTP.putline]. *)
Inductive err_class := FtplibError | OsError | EofError.

Inductive exn :=
| Exn (c : err_class) (msg : string)
| SystemExit (code : Z)
| OtherError (msg : string).

(** [str(e)] as it is interpolated in the log line of [upload_file]. *)
Definition exn_str (e : exn) : string :=
  match e with
  | Exn _ msg => msg
  | SystemExit code => pretty code
  | OtherError msg => msg
  end.

(** Method calls on the [ftplib.FTP] object.  [Prepare] is no call of
    the script's: it stands for what [storbinary] does before it sends its
    command line, TYPE I and the set-up of the data connection. *)
Inductive ftp_call :=
| Connect (host user passwd : string)
| Cwd (dirname : string)
| Storbinary (cmd : string) (data : list Byte.byte)
| Sendcmd (cmd : string)
| Quit
| Prepare.

(** What the remote end makes of a call: the server's response line, or
    an error of [ftplib.all_errors], raised by the call. *)
Inductive reply :=
| Resp (text : string)
| Fail (c : err_class) (msg : string).

(** What a call comes to: the reply of the remote end, or none, because
    [FTP.putline] found a carriage return or a line feed in the command
    line it was to send and raised [ValueError] instead of sending it. *)
Inductive outcome :=
| Replied (r : reply)
| Refused.

Coercion Replied : reply >-> outcome.

(** Observable effects of a run, in the order they happen. *)
Inductive event :=
| EvOpen (path : string) (ok : bool)
| EvFtp (c : ftp_call) (o : outcome)
| EvTouch (path : string) (t : Z).

Record world := World {
  fs : gmap string file;          (* local file system *)
  wd : option string;             (* directory of the last successful cwd *)
  threshold : level;              (* root logger level *)
  log : list (level * string);    (* records passed to [logging] *)
  events : list event;
  read_only : gset string         (* paths that cannot be created or updated *)
}.

Inductive result (A : Type) :=
| Ok (a : A)
| Raise (e : exn).
Arguments Ok {A} a.
Arguments Raise {A} e.

(** ** The monad *)

Definition M (A : Type) : Type := world -> result A * world.

Definition ret {A} (a : A) : M A := fun w => (Ok a, w).

Definition raise {A} (e : exn) : M A := fun w => (Raise e, w).

Definition bind {A B} (k : A -> M B) (m : M A) : M B :=
  fun w =>
    match m w with
    | (Ok a, w') => k a w'
    | (Raise e, w') => (Raise e, w')
    end.

#[export] Instance M_ret : MRet M := @ret.
#[export] Instance M_bind : MBind M := @bind.

(** [try: body except ftplib.all_errors as e: handler e]. *)
Definition try_all_errors (body : M unit) (handler : exn -> M unit) : M unit :=
  fun w =>
    match body w with
    | (Raise (Exn c msg), w') => handler (Exn c msg) w'
    | other => other
    end.

(** A [for] loop that threads a local variable through its body. *)
Fixpoint for_each {A S} (xs : list A) (body : S -> A -> M S) (s : S) : M S :=
  match xs with
  | [] => ret s
  | x :: xs' => s' ← body s x; for_each xs' body s'
  end.

(** ** Primitive effects *)

Definition set_log (l : list (level * string)) (w : world) : world :=
  World (fs w) (wd w) (threshold w) l (events w) (read_only w).

Definition set_threshold (t : level) (w : world) : world :=
  World (fs w) (wd w) t (log w) (events w) (read_only w).

Definition set_wd (d : option string) (w : world) : world :=
  World (fs w) d (threshold w) (log w) (events w) (read_only w).

Definition set_fs (m : gmap string file) (w : world) : world :=
  World m (wd w) (threshold w) (log w) (events w) (read_only w).

Definition add_event (e : event) (w : world) : world :=
  World (fs w) (wd w) (threshold w) (log w) (events w ++ [e]) (read_only w).

(** [logging.debug/info/error]: the record is handed to the root logger. *)
Definition logging (l : level) (msg : string) : M unit :=
  fun w => (Ok (), set_log (log w ++ [(l, msg)]) w).

(** The records the root logger lets through. *)
Definition emitted (w : world) : list (level * string) :=
  filter (λ r, level_no (threshold w) <= level_no r.1) (log w).

(** [logging.basicConfig(level=...)]. *)
Definition basicConfig (l : level) : M unit :=
  fun w => (Ok (), set_threshold l w).

Definition no_such_file (path : string) : exn :=
  Exn OsError ("[Errno 2] No such file or directory: '" +:+ path +:+ "'").

(** [os.path.exists] *)
Definition os_path_exists (path : string) : M bool :=
  fun w => (Ok (bool_decide (is_Some (fs w !! path))), w).

(** [os.path.getmtime]: raises [OSError] when the path is not there. *)
Definition os_path_getmtime (path : string) : M Z :=
  fun w =>
    match fs w !! path with
    | Some f => (Ok (mtime f), w)
    | None => (Raise (no_such_file path), w)
    end.

(** [open(path, "rb")], together with the data the transfer reads from it. *)
Definition open_rb (path : string) : M (list Byte.byte) :=
  fun w =>
    match fs w !! path with
    | Some f => (Ok (content f), add_event (EvOpen path true) w)
    | None => (Raise (no_such_file path), add_event (EvOpen path false) w)
    end.

Definition permission_denied (path : string) : exn :=
  Exn OsError ("[Errno 13] Permission denied: '" +:+ path +:+ "'").

(** A carriage return or a line feed somewhere in [s]. *)
Fixpoint has_newline (s : string) : bool :=
  match s with
  | EmptyString => false
  | String c r =>
      Ascii.eqb c "013"%char || Ascii.eqb c "010"%char || has_newline r
  end.

(** The calls [FTP.putline] refuses: those whose command line is built
    from an argument that holds a line break.  [cwd(d)] sends ["CWD " + d]
    ([d] is never [""] or [".."] here, see [join_root_absolute]),
    [storbinary(cmd, fp)] and [sendcmd(cmd)] send [cmd].  QUIT is a
    constant, and the constants of [creds.py] are taken to be a host, a
    user name and a password of one line each. *)
Definition illegal (c : ftp_call) : bool :=
  match c with
  | Cwd dirname => has_newline dirname
  | Storbinary cmd _ => has_newline cmd
  | Sendcmd cmd => has_newline cmd
  | Connect _ _ _ | Quit | Prepare => false
  end.

(** What a call comes to when the remote end would answer it with [r].
    A refused line is not sent, so that answer does not matter then; only
    [storbinary] talks to the server before it reaches the refused line,
    and an error there, in the answer [prepared] to [Prepare], is raised
    first. *)
Definition outcome_of (c : ftp_call) (r prepared : reply) : outcome :=
  if illegal c then
    match c, prepared with
    | Storbinary _ _, Fail cl msg => Replied (Fail cl msg)
    | _, _ => Refused
    end
  else Replied r.

(** [str(e)] of the [ValueError] of [FTP.putline]. *)
Definition illegal_newline : string :=
  "an illegal newline character should not be contained".

(** The FTP calls made so far. *)
Definition calls_of (evs : list event) : list ftp_call :=
  omap (λ e, match e with EvFtp c _ => Some c | _ => None end) evs.

Section Run.

(** The constants of [creds.py]. *)
Variable C : creds.

(** [glob.glob], as a function of the local file system and the pattern. *)
Variable glob : gmap string file -> string -> list string.

(** The remote end: what a call answers after the calls made before it.
    The client is sequential, so this covers every behaviour of a server
    and of the connection (a dropped connection fails every later call). *)
Variable server : list ftp_call -> ftp_call -> reply.

(** [datetime.utcfromtimestamp(t).isoformat()]; [None] where
    [utcfromtimestamp] rejects a timestamp as out of range. *)
Variable isoformat : Z -> option string.

(** The clock reading [Path.touch] stamps on the marker. *)
Variable now : Z.

(** [Path(path).touch()]: create the file if absent, set its
    modification time to the current time; [OSError] when the path can be
    neither updated nor created. *)
Definition touch (path : string) : M unit :=
  fun w =>
    if bool_decide (path ∈ read_only w) then (Raise (permission_denied path), w)
    else
      let f := match fs w !! path with
               | Some old => File now (content old)
               | None => File now []
               end in
      (Ok (), add_event (EvTouch path now) (set_fs (<[path := f]> (fs w)) w)).

Definition utc_isoformat (t : Z) : M string :=
  fun w =>
    match isoformat t with
    | Some text => (Ok text, w)
    | None => (Raise (OtherError "timestamp out of range"), w)
    end.

(** One method call on the session.  A successful [cwd] moves the
    working directory; a failed call raises one of [ftplib.all_errors], a
    refused one [ValueError]. *)
Definition ftp (c : ftp_call) : M string :=
  fun w =>
    let h := calls_of (events w) in
    let o := outcome_of c (server h c) (server h Prepare) in
    let w1 := add_event (EvFtp c o) w in
    match o with
    | Replied (Resp text) =>
        (Ok text, match c with Cwd d => set_wd (Some d) w1 | _ => w1 end)
    | Replied (Fail cl msg) => (Raise (Exn cl msg), w1)
    | Refused => (Raise (OtherError illegal_newline), w1)
    end.

(** [with ftplib.FTP(host=..., user=..., passwd=...) as ftp: body].  The
    constructor connects and logs in and may raise; [__exit__] sends QUIT
    and swallows [OSError] and [EOFError] only. *)
Definition with_FTP {A} (body : M A) : M A :=
  fun w =>
    match ftp (Connect (SERVER C) (USER C) (PSWRD C)) w with
    | (Raise e, w1) => (Raise e, w1)
    | (Ok _, w1) =>
        let (r, w2) := body w1 in
        match ftp Quit w2 with
        | (Ok _, w3)
        | (Raise (Exn OsError _), w3)
        | (Raise (Exn EofError _), w3) => (r, w3)
        | (Raise e, w3) => (Raise e, w3)
        end
    end.

(** ** [upload_file] *)

Definition upload_file (local_path filename remote_base sub_path : string)
    (permissions_int : Z) : M unit :=
  let remote_path := posixpath.join "/" [remote_base; sub_path] in
  try_all_errors
    (fp ← open_rb local_path;
     ftp (Cwd remote_path);;
     logging DEBUG ("Changed directory to " +:+ remote_path);;
     res ← ftp (Storbinary ("STOR " +:+ filename) fp);
     if negb (posixpath.startswith res "226") then
       logging ERROR ("FAILURE uploading '" +:+ filename +:+ "'");;
       logging ERROR res
     else
       logging INFO ("Uploaded '" +:+ filename +:+ "' to " +:+ remote_path);;
       res2 ← ftp (Sendcmd ("SITE CHMOD " +:+ pretty permissions_int +:+ " " +:+ filename));
       logging DEBUG ("Permissions change: '" +:+ res2 +:+ "'"))
    (λ e, logging ERROR ("FTP Error: '" +:+ exn_str e +:+ "'"));;
  (* return to root path (from an FTP POV) *)
  ftp (Cwd (posixpath.join "/" [remote_base]));;
  mret ().

(** ** [check_and_upload_files] *)

(** The test of line 81, [force_update or getmtime(fs_obj) > last]:
    [getmtime] is not called when [force_update] is set. *)
Definition changed_since (force_update : bool) (last_update_date_time : Z)
    (fs_obj : string) : M bool :=
  if force_update then mret true
  else m ← os_path_getmtime fs_obj; mret (last_update_date_time <? m).

(** The body of the inner [for fs_obj in glob.glob(...)] loop. *)
Definition visit (remote_base : string) (force_update : bool)
    (last_update_date_time : Z) (sub_path : string) (perms_int : Z)
    (count : nat) (fs_obj : string) : M nat :=
  go ← changed_since force_update last_update_date_time fs_obj;
  if go : bool then
    let file_name := posixpath.basename fs_obj in
    upload_file fs_obj file_name remote_base sub_path perms_int;;
    mret (S count)
  else mret count.

(** The body of the outer [for ... in SUB_PATHS] loop. *)
Definition visit_entry (source_path remote_base : string) (force_update : bool)
    (last_update_date_time : Z) (count : nat) (entry : string * string * Z)
    : M nat :=
  let '(sub_path, file_spec, perms_int) := entry in
  fun w =>
    for_each (glob (fs w) (posixpath.join source_path [sub_path; file_spec]))
      (visit remote_base force_update last_update_date_time sub_path perms_int)
      count w.

(** Lines 78-91: the two nested loops, [count] starting at 0. *)
Definition walk_manifest (source_path remote_base : string)
    (force_update : bool) (last_update_date_time : Z) : M nat :=
  for_each SUB_PATHS
    (visit_entry source_path remote_base force_update last_update_date_time)
    0%nat.

(** Lines 68-72: the cutoff read from the marker. *)
Definition read_last_update : M Z :=
  ex ← os_path_exists (LAST_UPDATE_FILENAME C);
  if ex : bool then os_path_getmtime (LAST_UPDATE_FILENAME C) else mret 0.

(** The Python function returns [None]; the model returns the final
    value of its local [count], the number it logs on line 93. *)
Definition check_and_upload_files (source_path remote_base : string)
    (force_update : bool) : M nat :=
  last_update_date_time ← read_last_update;
  stamp ← utc_isoformat last_update_date_time;
  logging INFO ("Last update date/time=" +:+ stamp);;
  count ← with_FTP
    (logging DEBUG ("Logged into '" +:+ SERVER C +:+ "'");;
     walk_manifest source_path remote_base force_update last_update_date_time);
  logging INFO ("Uploaded " +:+ pretty count +:+ " files.");;
  (if (0 <? count)%nat then touch (LAST_UPDATE_FILENAME C) else mret ());;
  mret count.

(** ** [handle_options] and [main] *)

Definition handle_options (o : options) : M (string * string * bool) :=
  match opt_log_level o with
  | Some l => basicConfig l
  | None => basicConfig INFO
  end;;
  if String.eqb (opt_source_path o) "" then
    logging ERROR "No source specified - nothing to do!";;
    raise (SystemExit 1)
  else mret (opt_source_path o, opt_remote_base o, opt_force_update o).

(** Like [check_and_upload_files], the model of [main] hands back the
    count; the script discards it. *)
Definition main (o : options) : M nat :=
  '(source_path, remote_base, force_update) ← handle_options o;
  check_and_upload_files source_path remote_base force_update.

(** The status the interpreter exits with: 0 after a normal return, the
    code of [sys.exit], 1 after any other uncaught exception. *)
Definition exit_status {A} (r : result A) : Z :=
  match r with
  | Ok _ => 0
  | Raise (SystemExit code) => code
  | Raise (Exn _ _) => 1
  | Raise (OtherError _) => 1
  end.

End Run.

Arguments posixpath.join : simpl never.

(** ** Reading a trace *)

Definition is_open (e : event) : bool :=
  match e with EvOpen _ _ => true | _ => false end.

(** A transfer the server acknowledged with [226]: the only case in which
    [upload_file] logs "Uploaded". *)
Definition is_stored (e : event) : bool :=
  match e with
  | EvFtp (Storbinary _ _) (Replied (Resp res)) =>
      posixpath.startswith res "226"
  | _ => false
  end.

(** Calls of [upload_file] (each opens its local file first). *)
Definition attempts (evs : list event) : nat := length (List.filter is_open evs).

(** Files that reached the server. *)
Definition stored (evs : list event) : nat := length (List.filter is_stored evs).

(** [upload_file] was called on [path]. *)
Definition attempted (path : string) (evs : list event) : Prop :=
  ∃ ok, EvOpen path ok ∈ evs.

(** The test of line 81 as a function of the file system. *)
Definition qualifies (force_update : bool) (last_update_date_time : Z)
    (m : gmap string file) (path : string) : bool :=
  force_update ||
  match m !! path with
  | Some f => last_update_date_time <? mtime f
  | None => false
  end.

(** The cutoff of lines 68-72 as a function of the file system. *)
Definition cutoff (C : creds) (m : gmap string file) : Z :=
  match m !! LAST_UPDATE_FILENAME C with
  | Some f => mtime f
  | None => 0
  end.

(** The paths one manifest entry's pattern expands to. *)
Definition entry_paths (glob : gmap string file -> string -> list string)
    (m : gmap string file) (source_path : string)
    (entry : string * string * Z) : list string :=
  glob m (posixpath.join source_path [entry.1.1; entry.1.2]).

(** Every path some manifest entry's pattern expands to. *)
Definition candidates (glob : gmap string file -> string -> list string)
    (m : gmap string file) (source_path : string) : list string :=
  SUB_PATHS ≫= entry_paths glob m source_path.

(** Events after the [open] in one call of [upload_file]: FTP calls only,
    and a store names [filename] and carries the content of [local_path]. *)
Definition upload_event (m : gmap string file) (local_path filename : string)
    (e : event) : Prop :=
  match e with
  | EvFtp (Storbinary cmd data) _ =>
      cmd = "STOR " +:+ filename ∧
      ∃ x, m !! local_path = Some x ∧ data = content x
  | EvFtp _ _ => True
  | _ => False
  end.

(** Events of a walk over [paths]: only files that passed the test of
    line 81 are opened, a store names the basename of such a file and
    carries its content, and the marker is not touched. *)
Definition walk_event (force_update : bool) (last_update_date_time : Z)
    (paths : list string) (m : gmap string file) (e : event) : Prop :=
  match e with
  | EvOpen path _ =>
      path ∈ paths ∧ qualifies force_update last_update_date_time m path = true
  | EvFtp (Storbinary cmd data) _ =>
      ∃ path x, path ∈ paths ∧
        qualifies force_update last_update_date_time m path = true ∧
        m !! path = Some x ∧
        cmd = "STOR " +:+ posixpath.basename path ∧ data = content x
  | EvFtp _ _ => True
  | EvTouch _ _ => False
  end.

(** What a step of the walk does to the world: it leaves the local files,
    what may be written and the logger level alone, appends events that satisfy [P], stores no
    more files than it attempts, and when it returns, the counter has grown
    by the number of attempts and the new events satisfy [G]. *)
Definition tracks (P : event -> Prop) (G : list event -> Prop) (c : nat)
    (w : world) (rw : result nat * world) : Prop :=
  fs rw.2 = fs w ∧ threshold rw.2 = threshold w ∧
  read_only rw.2 = read_only w ∧
  ∃ evs, events rw.2 = events w ++ evs ∧ Forall P evs ∧
         (stored evs ≤ attempts evs)%nat ∧
         ∀ c', rw.1 = Ok c' → c' = (c + attempts evs)%nat ∧ G evs.

(** Every path of [paths] that passes the test of line 81 was attempted. *)
Definition covers (force_update : bool) (last_update_date_time : Z)
    (paths : list string) (m : gmap string file) (evs : list event) : Prop :=
  ∀ path, path ∈ paths →
    qualifies force_update last_update_date_time m path = true →
    attempted path evs.

(** The local files after [Path(marker).touch()] at time [now]. *)
Definition touched (marker : string) (now : Z) (m : gmap string file)
    : gmap string file :=
  <[marker := match m !! marker with
              | Some old => File now (content old)
              | None => File now []
              end]> m.

(** What a run of [check_and_upload_files] from [w] leaves behind: the
    events [evs] of the session, and the marker touched once, after them,
    exactly when the run returns a positive count. *)
Definition run_outcome (C : creds) (now : Z) (force_update : bool)
    (paths : list string) (w : world) (rw : result nat * world) : Prop :=
  threshold rw.2 = threshold w ∧
  ∃ evs,
    Forall (walk_event force_update (cutoff C (fs w)) paths (fs w)) evs ∧
    (stored evs ≤ attempts evs)%nat ∧
    match rw.1 with
    | Ok c =>
        c = attempts evs ∧
        covers force_update (cutoff C (fs w)) paths (fs w) evs ∧
        if (0 <? c)%nat then
          events rw.2 = events w ++ evs ++ [EvTouch (LAST_UPDATE_FILENAME C) now] ∧
          fs rw.2 = touched (LAST_UPDATE_FILENAME C) now (fs w)
        else events rw.2 = events w ++ evs ∧ fs rw.2 = fs w
    | Raise _ => events rw.2 = events w ++ evs ∧ fs rw.2 = fs w
    end.

(** The events a computation added to the trace of [w]. *)
Definition new_events (w w' : world) : list event :=
  drop (length (events w)) (events w').

Definition new_log (w w' : world) : list (level * string) :=
  drop (length (log w)) (log w').

Definition is_touch (e : event) : bool :=
  match e with EvTouch _ _ => true | _ => false end.

Definition is_site_chmod (e : event) : bool :=
  match e with EvFtp (Sendcmd _) _ => true | _ => false end.

(** ** Servers that differ only in how they answer [sendcmd] *)

Definition is_sendcmd (c : ftp_call) : bool :=
  match c with Sendcmd _ => true | _ => false end.

Definition same_but_sendcmd (s1 s2 : list ftp_call -> ftp_call -> reply) : Prop :=
  ∀ h c, is_sendcmd c = false → s1 h c = s2 h c.

(** An event with the answer to [sendcmd] blanked out. *)
Definition blind (e : event) : event :=
  match e with
  | EvFtp (Sendcmd cmd) _ => EvFtp (Sendcmd cmd) (Resp "")
  | _ => e
  end.

(** Two worlds that differ at most in the log and in the answers
    [sendcmd] received. *)
Definition sim (w1 w2 : world) : Prop :=
  fs w1 = fs w2 ∧ wd w1 = wd w2 ∧ threshold w1 = threshold w2 ∧
  read_only w1 = read_only w2 ∧
  blind <$> events w1 = blind <$> events w2.

Definition sim_out {A} (rw1 rw2 : result A * world) : Prop :=
  rw1.1 = rw2.1 ∧ sim rw1.2 rw2.2.

(** A result the [except ftplib.all_errors] clause turns into a normal
    return: a value, or an exception of [ftplib.all_errors]. *)
Definition caught {A} (r : result A) : Prop :=
  match r with
  | Raise (SystemExit _) => False
  | Raise (OtherError _) => False
  | _ => True
  end.

(** A result that is not a call of [sys.exit]. *)
Definition no_exit {A} (r : result A) : Prop :=
  match r with
  | Raise (SystemExit _) => False
  | _ => True
  end.

(** Outcomes inside the [try] block that may differ in how they ended, as
    long as the [except] clause catches both. *)
Definition loosely {A} (rw1 rw2 : result A * world) : Prop :=
  sim rw1.2 rw2.2 ∧ (caught rw1.1 ∧ caught rw2.1 ∨ rw1.1 = rw2.1).

(** What the outcome of an FTP method call means for its caller. *)
Definition reply_result (o : outcome) : result unit :=
  match o with
  | Replied (Resp _) => Ok ()
  | Replied (Fail c msg) => Raise (Exn c msg)
  | Refused => Raise (OtherError illegal_newline)
  end.

(** The log line that follows the SITE CHMOD command: its response at
    debug level, or the error it raised, written by the [except] clause. *)
Definition chmod_log (r2 : reply) : level * string :=
  match r2 with
  | Resp res2 => (DEBUG, "Permissions change: '" +:+ res2 +:+ "'")
  | Fail _ msg => (ERROR, "FTP Error: '" +:+ msg +:+ "'")
  end.

(** The courses one call of [upload_file] can take, as the events and log
    records it adds, and the outcome [back] that decides how the call ends.
    In five of them the [try] statement is left in the ordinary way or
    through its [except] clause, and [back] is the outcome of the final
    change to the base directory.  In the other two a command line inside
    the [try] statement is refused: the [ValueError] passes the [except]
    clause, nothing is logged for it and the final change of directory is
    not reached. *)
Inductive upload_course (m : gmap string file)
    (local_path filename remote_base sub_path : string) (perm : Z)
    : list event → list (level * string) → outcome → Prop :=
| course_no_file back :
    m !! local_path = None →
    upload_course m local_path filename remote_base sub_path perm
      [EvOpen local_path false;
       EvFtp (Cwd (posixpath.join "/" [remote_base])) back]
      [(ERROR, "FTP Error: '" +:+ exn_str (no_such_file local_path) +:+ "'")]
      back
| course_cwd_failed x c msg back :
    m !! local_path = Some x →
    upload_course m local_path filename remote_base sub_path perm
      [EvOpen local_path true;
       EvFtp (Cwd (posixpath.join "/" [remote_base; sub_path])) (Fail c msg);
       EvFtp (Cwd (posixpath.join "/" [remote_base])) back]
      [(ERROR, "FTP Error: '" +:+ msg +:+ "'")]
      back
| course_cwd_illegal x :
    m !! local_path = Some x →
    upload_course m local_path filename remote_base sub_path perm
      [EvOpen local_path true;
       EvFtp (Cwd (posixpath.join "/" [remote_base; sub_path])) Refused]
      []
      Refused
| course_store_failed x a c msg back :
    m !! local_path = Some x →
    upload_course m local_path filename remote_base sub_path perm
      [EvOpen local_path true;
       EvFtp (Cwd (posixpath.join "/" [remote_base; sub_path])) (Resp a);
       EvFtp (Storbinary ("STOR " +:+ filename) (content x)) (Fail c msg);
       EvFtp (Cwd (posixpath.join "/" [remote_base])) back]
      [(DEBUG, "Changed directory to " +:+ posixpath.join "/" [remote_base; sub_path]);
       (ERROR, "FTP Error: '" +:+ msg +:+ "'")]
      back
| course_store_illegal x a :
    m !! local_path = Some x →
    upload_course m local_path filename remote_base sub_path perm
      [EvOpen local_path true;
       EvFtp (Cwd (posixpath.join "/" [remote_base; sub_path])) (Resp a);
       EvFtp (Storbinary ("STOR " +:+ filename) (content x)) Refused]
      [(DEBUG, "Changed directory to " +:+ posixpath.join "/" [remote_base; sub_path])]
      Refused
| course_store_refused x a res back :
    m !! local_path = Some x →
    posixpath.startswith res "226" = false →
    upload_course m local_path filename remote_base sub_path perm
      [EvOpen local_path true;
       EvFtp (Cwd (posixpath.join "/" [remote_base; sub_path])) (Resp a);
       EvFtp (Storbinary ("STOR " +:+ filename) (content x)) (Resp res);
       EvFtp (Cwd (posixpath.join "/" [remote_base])) back]
      [(DEBUG, "Changed directory to " +:+ posixpath.join "/" [remote_base; sub_path]);
       (ERROR, "FAILURE uploading '" +:+ filename +:+ "'");
       (ERROR, res)]
      back
| course_stored x a res (r2 : reply) back :
    m !! local_path = Some x →
    posixpath.startswith res "226" = true →
    upload_course m local_path filename remote_base sub_path perm
      [EvOpen local_path true;
       EvFtp (Cwd (posixpath.join "/" [remote_base; sub_path])) (Resp a);
       EvFtp (Storbinary ("STOR " +:+ filename) (content x)) (Resp res);
       EvFtp (Sendcmd ("SITE CHMOD " +:+ pretty perm +:+ " " +:+ filename)) r2;
       EvFtp (Cwd (posixpath.join "/" [remote_base])) back]
      [(DEBUG, "Changed directory to " +:+ posixpath.join "/" [remote_base; sub_path]);
       (INFO, "Uploaded '" +:+ filename +:+ "' to " +:+
              posixpath.join "/" [remote_base; sub_path]);
       chmod_log r2]
      back.

(** ** Concrete runs

    A site of two pages under [output/], and servers that accept
    everything, refuse a store, lose the connection, or refuse the login. *)

Module Scenario.

Definition C0 : creds :=
  Creds "ftp.example.org" "user" "secret" "lastupdate.txt".

Definition index : string := "output/index.html".
Definition about : string := "output/about.html".

Definition index_file : file := File 100 [Byte.x68; Byte.x69].
Definition about_file : file := File 200 [Byte.x6f; Byte.x6b].

(** The two pages, no marker. *)
Definition fs_pages : gmap string file :=
  <[index := index_file]> (<[about := about_file]> ∅).

(** The two pages and a marker older than both. *)
Definition fs_marked : gmap string file :=
  <["lastupdate.txt" := File 50 []]> fs_pages.

(** One page whose modification time is the epoch, no marker. *)
Definition fs_epoch : gmap string file :=
  <[index := File 0 [Byte.x68; Byte.x69]]> ∅.

(** [glob.glob] for that site: only [output/*.html] matches anything,
    and only files that exist are returned. *)
Definition glob0 (m : gmap string file) (pattern : string) : list string :=
  if String.eqb pattern "output/*.html" then
    List.filter (λ path, bool_decide (is_Some (m !! path))) [index; about]
  else [].

(** Any rendering of the timestamp will do for the log line. *)
Definition iso0 (t : Z) : option string := Some (pretty t).

Definition start (m : gmap string file) : world :=
  World m None WARNING [] [] ∅.

Definition srv_ok (h : list ftp_call) (c : ftp_call) : reply :=
  match c with
  | Connect _ _ _ => Resp "230 Login successful."
  | Cwd _ => Resp "250 Directory successfully changed."
  | Storbinary _ _ => Resp "226 Transfer complete."
  | Sendcmd _ => Resp "200 SITE CHMOD command ok."
  | Quit => Resp "221 Goodbye."
  | Prepare => Resp "200 Switching to Binary mode."
  end.

(** Refuses to store [index.html]. *)
Definition srv_reject_index (h : list ftp_call) (c : ftp_call) : reply :=
  match c with
  | Storbinary cmd _ =>
      if String.eqb cmd "STOR index.html"
      then Fail FtplibError "553 Could not create file."
      else srv_ok h c
  | _ => srv_ok h c
  end.

(** Refuses every store. *)
Definition srv_read_only (h : list ftp_call) (c : ftp_call) : reply :=
  match c with
  | Storbinary _ _ => Fail FtplibError "550 Permission denied."
  | _ => srv_ok h c
  end.

Definition is_storbinary (c : ftp_call) : bool :=
  match c with Storbinary _ _ => true | _ => false end.

(** Loses the connection during the first transfer: that call ends with
    [EOFError], every later call with [OSError]. *)
Definition srv_drop (h : list ftp_call) (c : ftp_call) : reply :=
  if existsb is_storbinary h then Fail OsError "[Errno 32] Broken pipe"
  else match c with
       | Storbinary _ _ => Fail EofError ""
       | _ => srv_ok h c
       end.

(** Refuses the login. *)
Definition srv_no_login (h : list ftp_call) (c : ftp_call) : reply :=
  match c with
  | Connect _ _ _ => Fail FtplibError "530 Login incorrect."
  | _ => srv_ok h c
  end.

(** Does not know SITE CHMOD. *)
Definition srv_no_chmod (h : list ftp_call) (c : ftp_call) : reply :=
  match c with
  | Sendcmd _ => Fail FtplibError "500 Unknown SITE command."
  | _ => srv_ok h c
  end.

End Scenario.

(** More of them: a marker newer than the pages, a server that fails at
    the very end, a dangling link, a file name with a line break, and a
    marker that cannot be written. *)

Module More_scenarios.
Import Scenario.

(** The two pages and a marker newer than both. *)
Definition fs_synced : gmap string file :=
  <["lastupdate.txt" := File 300 []]> fs_pages.

(** Answers QUIT with an error reply. *)
Definition srv_bad_quit (h : list ftp_call) (c : ftp_call) : reply :=
  match c with
  | Quit => Fail FtplibError "500 Unknown command."
  | _ => srv_ok h c
  end.

(** A dangling link [output/link.html] comes first among the matches of
    [output/*.html]. *)
Definition link : string := "output/link.html".

Definition glob_link (m : gmap string file) (pattern : string) : list string :=
  if String.eqb pattern "output/*.html" then link :: glob0 m pattern else [].

(** A page whose file name holds a line feed. *)
Definition odd : string := "output/a" +:+ String "010" "b.html".

Definition fs_odd : gmap string file :=
  <[odd := File 100 [Byte.x68; Byte.x69]]> ∅.

Definition glob_odd (m : gmap string file) (pattern : string) : list string :=
  if String.eqb pattern "output/*.html" then [odd] else [].

(** The two pages in a directory where the marker cannot be created. *)
Definition start_read_only : world :=
  World fs_pages None WARNING [] [] {[ LAST_UPDATE_FILENAME C0 ]}.

End More_scenarios.

Ltac unfold_m :=
  unfold try_all_errors, open_rb, ftp, logging, touch,
    os_path_getmtime, os_path_exists, basicConfig, raise,
    mbind, M_bind, bind, mret, M_ret, ret in *.

(** ** The walk as a list of jobs *)

(** One call of [upload_file] the walk makes: the local path, and the
    [sub_path] and permissions of the manifest entry whose pattern matched
    it. *)
Definition job : Type := string * string * Z.

Definition job_path (j : job) : string := j.1.1.

(** The calls one manifest entry gives rise to: its matches that pass the
    test of line 81, in the order [glob.glob] returned them. *)
Definition entry_jobs (glob : gmap string file -> string -> list string)
    (m : gmap string file) (source_path : string) (force_update : bool)
    (last_update_date_time : Z) (entry : string * string * Z) : list job :=
  (λ path, (path, entry.1.1, entry.2)) <$>
  List.filter (qualifies force_update last_update_date_time m)
              (entry_paths glob m source_path entry).

(** The calls a complete walk makes, in manifest order. *)
Definition jobs (glob : gmap string file -> string -> list string)
    (m : gmap string file) (source_path : string) (force_update : bool)
    (last_update_date_time : Z) : list job :=
  SUB_PATHS ≫= entry_jobs glob m source_path force_update last_update_date_time.

(** The trace of a sequence of calls of [upload_file] that all returned. *)
Inductive courses (m : gmap string file) (remote_base : string)
    : list job → list event → Prop :=
| courses_nil : courses m remote_base [] []
| courses_cons path sub_path perm js evs logs t rest :
    upload_course m path (posixpath.basename path) remote_base sub_path perm
      evs logs (Resp t) →
    courses m remote_base js rest →
    courses m remote_base ((path, sub_path, perm) :: js) (evs ++ rest).

(** The trace of a call of [upload_file] on the first of [next] that
    raised [e]: its return to the base directory failed, or one of its
    command lines was refused. *)
Definition failed_course (m : gmap string file) (remote_base : string)
    (next : list job) (e : exn) (tail : list event) : Prop :=
  ∃ path sub_path perm rest logs back,
    next = (path, sub_path, perm) :: rest ∧ reply_result back = Raise e ∧
    upload_course m path (posixpath.basename path) remote_base sub_path perm
      tail logs back.

(** The trace of a walk that was to make the calls [js] and stopped at
    some point: the calls [done] returned, then either nothing more
    happened or the next call raised. *)
Definition partial_walk (m : gmap string file) (remote_base : string)
    (js : list job) (e : exn) (evs : list event) : Prop :=
  ∃ done next evs_done tail,
    js = done ++ next ∧ courses m remote_base done evs_done ∧
    evs = evs_done ++ tail ∧
    (tail = [] ∨ failed_course m remote_base next e tail).

(** The events [evs] and the result [r] of a walk that starts with the
    counter at [c0] and is to make the calls [js]. *)
Definition walk_shape (m : gmap string file) (remote_base : string)
    (js : list job) (c0 : nat) (r : result nat) (evs : list event) : Prop :=
  match r with
  | Ok c => courses m remote_base js evs ∧ c = (c0 + length js)%nat
  | Raise e => partial_walk m remote_base js e evs
  end.

(** The paths [upload_file] was called on, in order. *)
Definition opened (evs : list event) : list string :=
  omap (λ e, match e with EvOpen path _ => Some path | _ => None end) evs.

(** The SITE CHMOD commands sent. *)
Definition chmods (evs : list event) : nat :=
  length (List.filter is_site_chmod evs).

(** Events of the walk proper: opening a file, and the three FTP calls of
    [upload_file]. *)
Definition is_upload_event (e : event) : bool :=
  match e with
  | EvOpen _ _ => true
  | EvFtp (Cwd _) _ | EvFtp (Storbinary _ _) _ | EvFtp (Sendcmd _) _ => true
  | _ => false
  end.

(** The events of the [with] block of [check_and_upload_files]: nothing
    when the cutoff cannot be rendered, the refused login alone, or the
    login, the events of the walk and QUIT. *)
Inductive session_shape (C : creds) : list event → list event → Prop :=
| session_not_started : session_shape C [] []
| session_refused c msg :
    session_shape C
      [EvFtp (Connect (SERVER C) (USER C) (PSWRD C)) (Fail c msg)] []
| session_closed t inner q :
    session_shape C
      (EvFtp (Connect (SERVER C) (USER C) (PSWRD C)) (Resp t) ::
       inner ++ [EvFtp Quit q])
      inner.

(** What an event of the call of [upload_file] for the job [j] looks like:
    the file opened is the job's, a change of directory goes to the
    directory of its entry or back to the base, a store names its basename
    and carries its content, and SITE CHMOD sets the permissions of its
    entry on that name. *)
Definition course_event (m : gmap string file) (remote_base : string)
    (j : job) (e : event) : Prop :=
  match e with
  | EvOpen path _ => path = job_path j
  | EvFtp (Cwd d) _ =>
      d = posixpath.join "/" [remote_base; j.1.2] ∨
      d = posixpath.join "/" [remote_base]
  | EvFtp (Storbinary cmd data) _ =>
      cmd = "STOR " +:+ posixpath.basename (job_path j) ∧
      ∃ x, m !! job_path j = Some x ∧ data = content x
  | EvFtp (Sendcmd cmd) _ =>
      cmd = "SITE CHMOD " +:+ pretty j.2 +:+ " " +:+
            posixpath.basename (job_path j)
  | _ => False
  end.

(** Case analysis on membership in a list written out in full. *)
Ltac in_list H :=
  repeat (apply elem_of_cons in H as [H|H]; [try discriminate H|]);
  try (by apply elem_of_nil in H).

Ltac run_paths :=
  unfold_m; repeat case_match; simplify_eq;
  cbn [fst snd fs wd threshold log events read_only
       add_event set_log set_wd set_fs].

(** * Theorems *)

(** ** Paths *)

Lemma after_last_sep_no_sep (p acc : string) :
  posixpath.has_sep acc = false ∨ posixpath.has_sep p = true →
  posixpath.has_sep (posixpath.after_last_sep acc p) = false.
Proof.
  revert acc. induction p as [|c r IH]; intros acc H; simpl in *.
  - destruct H; [done | discriminate].
  - destruct (Ascii.eqb c "/") eqn:Hc; simpl in H.
    + apply IH. destruct (posixpath.has_sep r); auto.
    + apply IH. done.
Qed.

(** The target filename never carries a directory part. *)
Lemma basename_no_sep (p : string) :
  posixpath.has_sep (posixpath.basename p) = false.
Proof.
  unfold posixpath.basename. apply after_last_sep_no_sep.
  destruct (posixpath.has_sep p); auto.
Qed.

Lemma append_nil_l (b : string) : "" +:+ b = b.
Proof. reflexivity. Qed.

Lemma append_cons (x : ascii) (a b : string) :
  String x a +:+ b = String x (a +:+ b).
Proof. reflexivity. Qed.

Lemma append_assoc (a b c : string) : (a +:+ b) +:+ c = a +:+ (b +:+ c).
Proof. induction a as [|x a IH]; [done|]. by rewrite !append_cons, IH. Qed.

Lemma endswith_sep_app (a b : string) :
  posixpath.endswith_sep b = true → posixpath.endswith_sep (a +:+ b) = true.
Proof.
  intros Hb. induction a as [|x a IH]; [done|].
  rewrite append_cons. simpl. destruct (a +:+ b) eqn:Hab; [|done].
  destruct a; [|discriminate]. rewrite append_nil_l in Hab. by subst b.
Qed.

Lemma after_last_sep_split (p k : string) :
  ∃ dir, k +:+ p = dir +:+ posixpath.after_last_sep (k +:+ p) p ∧
         (dir = "" ∨ posixpath.endswith_sep dir = true).
Proof.
  revert k. induction p as [|c r IH]; intros k; simpl.
  - exists "". by split; [|left].
  - destruct (Ascii.eqb c "/") eqn:Hc.
    + apply Ascii.eqb_eq in Hc as ->.
      destruct (IH "") as (dir & Hdir & Hend). rewrite append_nil_l in Hdir.
      exists (k +:+ String "/" dir). split.
      * by rewrite append_assoc, append_cons, <- Hdir.
      * right. apply endswith_sep_app. simpl.
        destruct Hend as [->|Hend]; [done|]. by destruct dir.
    + destruct (IH (k +:+ String c "")) as (dir & Hdir & Hend).
      rewrite append_assoc, append_cons, append_nil_l in Hdir. by exists dir.
Qed.

(** [basename] is what follows the last separator: the path is a
    directory part, empty or ending in ["/"], followed by the basename. *)
Lemma basename_split (p : string) :
  ∃ dir, p = dir +:+ posixpath.basename p ∧
         (dir = "" ∨ posixpath.endswith_sep dir = true).
Proof. exact (after_last_sep_split p ""). Qed.

(** A path joined onto ["/"] is absolute, so it is neither [""] nor
    [".."], the two arguments [FTP.cwd] treats specially. *)
Lemma join_root_absolute (b : string) :
  posixpath.startswith (posixpath.join "/" [b]) "/" = true.
Proof.
  unfold posixpath.join, posixpath.join_step; simpl.
  destruct (posixpath.startswith b "/") eqn:H; [done|].
  unfold posixpath.startswith. by destruct b.
Qed.

Lemma join_root_relative (b : string) :
  posixpath.startswith b "/" = false →
  posixpath.join "/" [b] = "/" +:+ b.
Proof.
  intros H. unfold posixpath.join, posixpath.join_step; simpl. by rewrite H.
Qed.

(** ** Command lines *)

Lemma has_newline_app (a b : string) :
  has_newline (a +:+ b) = has_newline a || has_newline b.
Proof.
  induction a as [|x a IH]; [done|].
  rewrite append_cons. simpl. rewrite IH. by rewrite !orb_assoc.
Qed.

Lemma has_newline_digit (x : N) :
  Ascii.eqb (pretty_N_char x) "013" || Ascii.eqb (pretty_N_char x) "010" = false.
Proof. unfold pretty_N_char. by repeat case_match. Qed.

Lemma has_newline_pretty_N_go (x : N) (s : string) :
  has_newline (pretty_N_go x s) = has_newline s.
Proof.
  revert s. induction (N.lt_wf_0 x) as [x _ IH]; intros s.
  destruct (decide (x = 0%N)) as [->|Hx]; [done|].
  rewrite pretty_N_go_step by lia.
  rewrite IH by (apply N.div_lt; lia).
  simpl. by rewrite has_newline_digit.
Qed.

(** A number has no line break in it. *)
Lemma has_newline_pretty (n : Z) : has_newline (pretty n) = false.
Proof.
  assert (∀ p : positive, has_newline (pretty p) = false) as Hpos.
  { intros p. unfold pretty, pretty_positive, pretty, pretty_N.
    case_decide; [done|]. apply has_newline_pretty_N_go. }
  destruct n as [|p|p]; [done | apply Hpos |].
  unfold pretty, pretty_Z. by rewrite has_newline_app, Hpos.
Qed.

Lemma outcome_resp (c : ftp_call) (r p : reply) (t : string) :
  outcome_of c r p = Replied (Resp t) → illegal c = false ∧ r = Resp t.
Proof.
  unfold outcome_of. destruct (illegal c); [|by intros [= ->]].
  by destruct c, p.
Qed.

Lemma outcome_refused (c : ftp_call) (r p : reply) :
  outcome_of c r p = Refused → illegal c = true.
Proof. unfold outcome_of. by destruct (illegal c). Qed.

Lemma outcome_connect host user passwd (r p : reply) :
  outcome_of (Connect host user passwd) r p = Replied r.
Proof. reflexivity. Qed.

Lemma outcome_quit (r p : reply) : outcome_of Quit r p = Replied r.
Proof. reflexivity. Qed.

Lemma outcome_legal (c : ftp_call) (r p : reply) :
  illegal c = false → outcome_of c r p = Replied r.
Proof. unfold outcome_of. by intros ->. Qed.

(** When [FTP.putline] takes the STOR line of a file, it takes the SITE
    CHMOD line for the same name. *)
Lemma chmod_line_legal (filename : string) (perm : Z) (data : list Byte.byte) :
  illegal (Storbinary ("STOR " +:+ filename) data) = false →
  illegal (Sendcmd ("SITE CHMOD " +:+ pretty perm +:+ " " +:+ filename)) = false.
Proof.
  simpl. rewrite !has_newline_app, has_newline_pretty. simpl.
  by intros ->.
Qed.

Lemma has_newline_join (a : string) (p : list string) :
  has_newline a = false → Forall (λ b, has_newline b = false) p →
  has_newline (posixpath.join a p) = false.
Proof.
  intros Ha Hp. revert a Ha. unfold posixpath.join.
  induction Hp as [|b p Hb _ IH]; intros a Ha; [done|].
  simpl. apply IH. unfold posixpath.join_step.
  repeat case_match; rewrite ?has_newline_app; simpl; by rewrite ?Ha, ?Hb.
Qed.

(** The basename of a path without a line break has none. *)
Lemma has_newline_basename (p : string) :
  has_newline p = false → has_newline (posixpath.basename p) = false.
Proof.
  destruct (basename_split p) as (dir & Hp & _).
  rewrite Hp at 1. rewrite has_newline_app. by intros [_ ?]%orb_false_elim.
Qed.

Lemma SUB_PATHS_legal :
  Forall (λ entry : string * string * Z, has_newline entry.1.1 = false)
         SUB_PATHS.
Proof. unfold SUB_PATHS. by repeat constructor. Qed.

(** ** Counting over traces *)

Lemma attempts_app (a b : list event) :
  attempts (a ++ b) = (attempts a + attempts b)%nat.
Proof. unfold attempts. by rewrite List.filter_app, length_app. Qed.

Lemma stored_app (a b : list event) :
  stored (a ++ b) = (stored a + stored b)%nat.
Proof. unfold stored. by rewrite List.filter_app, length_app. Qed.

Lemma attempts_upload_events m local filename (evs : list event) :
  Forall (upload_event m local filename) evs → attempts evs = 0%nat.
Proof.
  induction 1 as [|e evs He _ IH]; [done|].
  by destruct e.
Qed.

Lemma attempted_app (path : string) (a b c : list event) :
  attempted path b → attempted path (a ++ b ++ c).
Proof. intros [ok H]. exists ok. set_solver. Qed.

Lemma tracks_skip P (G : list event → Prop) c w :
  G [] → tracks P G c w (Ok c, w).
Proof.
  intros HG. split_and!; [done..|]. exists []. rewrite app_nil_r.
  split_and!; [done | constructor | done |].
  intros c' [= <-]. split; [unfold attempts; simpl; lia | done].
Qed.

Lemma tracks_raise P G c w e : tracks P G c w (Raise e, w).
Proof.
  split_and!; [done..|]. exists []. rewrite app_nil_r.
  split_and!; [done | constructor | done | done].
Qed.

Lemma tracks_weaken (P P' : event → Prop) (G G' : list event → Prop) c w rw :
  (∀ e, P e → P' e) → (∀ evs, G evs → G' evs) →
  tracks P G c w rw → tracks P' G' c w rw.
Proof.
  intros HP HG (Hfs & Hth & Hro & evs & Hev & HF & Hst & Hc).
  split_and!; [done..|]. exists evs. split_and!; [done | | done |].
  - eapply Forall_impl; eauto.
  - intros c' Hr. destruct (Hc c' Hr). auto.
Qed.

(** The loop rule: a [for] loop whose body tracks [P] and reaches [G x]
    for its element tracks [P] and reaches every [G x]. *)
Lemma for_each_tracks {A} (P : gmap string file → event → Prop)
    (G : A → gmap string file → list event → Prop)
    (xs : list A) (body : nat → A → M nat) :
  (∀ x m a b c, G x m b → G x m (a ++ b ++ c)) →
  (∀ x c w, x ∈ xs → tracks (P (fs w)) (G x (fs w)) c w (body c x w)) →
  ∀ c w, tracks (P (fs w)) (λ evs, ∀ x, x ∈ xs → G x (fs w) evs) c w
           (for_each xs body c w).
Proof.
  intros Hmono. induction xs as [|x xs IH]; intros Hbody c w; simpl.
  - apply tracks_skip. intros x Hx. by apply elem_of_nil in Hx.
  - unfold mbind, M_bind, bind.
    pose proof (Hbody x c w ltac:(left)) as H1.
    destruct (body c x w) as [[c1|e] w1].
    2:{ destruct H1 as (? & ? & ? & evs & ? & ? & ? & _).
        split_and!; [done..|]. exists evs. split_and!; done. }
    pose proof (IH (λ y c w Hy, Hbody y c w ltac:(by right)) c1 w1) as H2.
    destruct (for_each xs body c1 w1) as [r w2].
    destruct H1 as (Hfs1 & Hth1 & Hro1 & evs1 & Hev1 & HP1 & Hst1 & Hc1).
    destruct H2 as (Hfs2 & Hth2 & Hro2 & evs2 & Hev2 & HP2 & Hst2 & Hc2).
    simpl in *. rewrite Hfs1 in *.
    split_and!; simpl; [congruence..|]. exists (evs1 ++ evs2). split_and!.
    + by rewrite Hev2, Hev1, app_assoc.
    + by apply Forall_app.
    + rewrite stored_app, attempts_app. lia.
    + intros c' ->. destruct (Hc2 _ eq_refl) as [-> HG2].
      destruct (Hc1 _ eq_refl) as [-> HG1]. split.
      * rewrite attempts_app. lia.
      * intros y [->|Hy]%elem_of_cons.
        -- exact (Hmono x (fs w) [] evs1 evs2 HG1).
        -- specialize (Hmono y (fs w) evs1 evs2 [] (HG2 y Hy)).
           by rewrite app_nil_r in Hmono.
Qed.

(** ** One call of [upload_file] *)

(** Every call of [upload_file] takes one of the courses; it returns
    exactly when the final change of directory succeeds, and the session
    is then in the base directory. *)
Lemma upload_file_course (server : list ftp_call → ftp_call → reply)
    local filename rb sub perm w :
  let rw := upload_file server local filename rb sub perm w in
  ∃ evs logs back,
    events rw.2 = events w ++ evs ∧ log rw.2 = log w ++ logs ∧
    upload_course (fs w) local filename rb sub perm evs logs back ∧
    fs rw.2 = fs w ∧ threshold rw.2 = threshold w ∧
    read_only rw.2 = read_only w ∧
    rw.1 = reply_result back ∧
    match back with
    | Replied (Resp _) => wd rw.2 = Some (posixpath.join "/" [rb])
    | _ => True
    end.
Proof.
  unfold upload_file. run_paths.
  all: try match goal with
       | H : outcome_of (Storbinary _ _) _ _ = Replied (Resp _),
         H' : outcome_of (Sendcmd _) _ _ = Refused |- _ =>
           apply outcome_resp in H as [H _]; apply outcome_refused in H';
           by rewrite (chmod_line_legal _ _ _ H) in H'
       end.
  all: rewrite <- ?app_assoc; simpl; eexists _, _, _.
  all: split; [reflexivity|];
       split; [first [reflexivity | symmetry; apply app_nil_r]|].
  all: split;
    [econstructor;
     first [eassumption | by apply negb_true_iff | by apply negb_false_iff]|].
  all: by split_and!.
Qed.
(* SPLIT *)

(** ** The walk over the manifest *)

Section Walk.

Variable glob : gmap string file -> string -> list string.
Variable server : list ftp_call -> ftp_call -> reply.

(** One call of [upload_file]: the local files are left alone, the file
    is opened, and what follows are FTP calls, at most one of them an
    acknowledged store. *)
Lemma upload_file_effects local filename rb sub perm w :
  let rw := upload_file server local filename rb sub perm w in
  fs rw.2 = fs w ∧ threshold rw.2 = threshold w ∧
  read_only rw.2 = read_only w ∧
  ∃ ok rest, events rw.2 = events w ++ EvOpen local ok :: rest ∧
    Forall (upload_event (fs w) local filename) rest ∧ (stored rest ≤ 1)%nat.
Proof.
  destruct (upload_file_course server local filename rb sub perm w)
    as (evs & logs & back & Hev & _ & Hcourse & Hfs & Hth & Hro & _).
  simpl. split_and!; [done..|]. rewrite Hev.
  destruct Hcourse; eexists _, _.
  all: split_and!; [reflexivity | repeat constructor; simpl; eauto |].
  all: unfold stored; simpl; repeat case_match; simpl; lia.
Qed.

Lemma upload_and_count_tracks rb force last sub perm c f w :
  qualifies force last (fs w) f = true →
  tracks (walk_event force last [f] (fs w)) (covers force last [f] (fs w)) c w
    ((upload_file server f (posixpath.basename f) rb sub perm;; mret (S c)) w).
Proof.
  intros Hq.
  pose proof (upload_file_effects f (posixpath.basename f) rb sub perm w) as Hu.
  unfold mbind, M_bind, bind, mret, M_ret, ret.
  destruct (upload_file _ _ _ _ _ _ w) as [r w'].
  simpl in Hu. destruct Hu as (Hfs & Hth & Hro & ok & rest & Hev & Hftp & Hst).
  assert (attempts (EvOpen f ok :: rest) = 1%nat) as Hatt.
  { change (EvOpen f ok :: rest) with ([EvOpen f ok] ++ rest).
    by rewrite attempts_app, (attempts_upload_events _ _ _ _ Hftp). }
  assert (Forall (walk_event force last [f] (fs w)) (EvOpen f ok :: rest)) as HP.
  { constructor; [split; [by apply list_elem_of_singleton | done]|].
    eapply Forall_impl; [exact Hftp|]. intros [| [] |]; simpl; try done.
    intros (-> & x & Hx & ->). exists f, x.
    split_and!; [by apply list_elem_of_singleton | done..]. }
  assert (stored (EvOpen f ok :: rest) ≤ attempts (EvOpen f ok :: rest))%nat.
  { rewrite Hatt. unfold stored in *. simpl. lia. }
  destruct r as [[]|e]; (split_and!; [done..|]); exists (EvOpen f ok :: rest);
    (split_and!; [done..|]); simpl; [|done].
  intros c' [= <-]. split; [lia|].
  intros path ->%list_elem_of_singleton _. exists ok.
  apply elem_of_cons. by left.
Qed.

(** The body of the inner loop. *)
Lemma visit_tracks rb force last sub perm c f w :
  tracks (walk_event force last [f] (fs w)) (covers force last [f] (fs w)) c w
    (visit server rb force last sub perm c f w).
Proof.
  unfold visit, changed_since.
  pose proof (upload_and_count_tracks rb force last sub perm c f w) as Hu.
  assert (qualifies force last (fs w) f = false →
          covers force last [f] (fs w) []) as Hno.
  { intros Hq path ->%list_elem_of_singleton. congruence. }
  unfold qualifies in Hu, Hno.
  destruct force; simpl in *.
  - apply Hu. done.
  - unfold os_path_getmtime.
    unfold mbind, M_bind, bind, mret, M_ret, ret in *.
    destruct (fs w !! f) as [x|]; simpl.
    + destruct (last <? mtime x); [by apply Hu | by apply tracks_skip, Hno].
    + apply tracks_raise.
Qed.

Lemma walk_event_mono force last (xs ys : list string) m e :
  xs ⊆ ys → walk_event force last xs m e → walk_event force last ys m e.
Proof.
  intros Hsub. destruct e as [| [] |]; simpl; try done.
  - intros [? ?]. split; [by apply Hsub | done].
  - intros (path & x & ? & ?). exists path, x. split; [by apply Hsub | done].
Qed.

Lemma covers_app force last xs m (a b c : list event) :
  covers force last xs m b → covers force last xs m (a ++ b ++ c).
Proof. intros H path Hin Hq. apply attempted_app. by apply H. Qed.

(** The inner loop over the paths of one pattern. *)
Lemma visit_paths_tracks rb force last sub perm (xs : list string) c w :
  tracks (walk_event force last xs (fs w)) (covers force last xs (fs w)) c w
    (for_each xs (visit server rb force last sub perm) c w).
Proof.
  eapply tracks_weaken;
    [| | apply (for_each_tracks (walk_event force last xs)
                  (λ f, covers force last [f]))].
  - done.
  - intros evs H path Hin Hq. apply (H path Hin); [set_solver | done].
  - intros. by apply covers_app.
  - intros f c0 w0 Hf. eapply tracks_weaken; [| |apply visit_tracks]; [|done].
    intros e. apply walk_event_mono. by intros y ->%list_elem_of_singleton.
Qed.

(** The body of the outer loop. *)
Lemma visit_entry_tracks src rb force last c entry w :
  tracks (walk_event force last (entry_paths glob (fs w) src entry) (fs w))
    (covers force last (entry_paths glob (fs w) src entry) (fs w)) c w
    (visit_entry glob server src rb force last c entry w).
Proof. destruct entry as [[sub spec] perm]. apply visit_paths_tracks. Qed.

(** The two nested loops over any manifest. *)
Lemma visit_entries_tracks src rb force last (entries : list (string * string * Z)) c w :
  tracks (walk_event force last (entries ≫= entry_paths glob (fs w) src) (fs w))
    (covers force last (entries ≫= entry_paths glob (fs w) src) (fs w)) c w
    (for_each entries (visit_entry glob server src rb force last) c w).
Proof.
  eapply tracks_weaken;
    [| | apply (for_each_tracks
                  (λ m, walk_event force last (entries ≫= entry_paths glob m src) m)
                  (λ entry m, covers force last (entry_paths glob m src entry) m))].
  - done.
  - intros evs H path (entry & Hpath & Hentry)%list_elem_of_bind Hq.
    by apply (H entry Hentry).
  - intros. by apply covers_app.
  - intros entry c0 w0 Hentry.
    eapply tracks_weaken; [| |apply visit_entry_tracks]; [|done].
    intros e. apply walk_event_mono. intros path Hpath.
    apply list_elem_of_bind. eauto.
Qed.

Lemma walk_manifest_tracks src rb force last w :
  tracks (walk_event force last (candidates glob (fs w) src) (fs w))
    (covers force last (candidates glob (fs w) src) (fs w)) 0%nat w
    (walk_manifest glob server src rb force last w).
Proof. apply visit_entries_tracks. Qed.

End Walk.

(** ** The run *)

Section Run_facts.

Variable C : creds.
Variable glob : gmap string file -> string -> list string.
Variable server : list ftp_call -> ftp_call -> reply.
Variable isoformat : Z -> option string.
Variable now : Z.

(** The [with] block: login, the walk, QUIT. *)
Lemma session_tracks src rb force last w :
  tracks (walk_event force last (candidates glob (fs w) src) (fs w))
    (covers force last (candidates glob (fs w) src) (fs w)) 0%nat w
    (with_FTP C server
       (logging DEBUG ("Logged into '" +:+ SERVER C +:+ "'");;
        walk_manifest glob server src rb force last) w).
Proof.
  unfold with_FTP, ftp at 1. rewrite outcome_connect. cbv zeta.
  destruct (server (calls_of (events w)) (Connect _ _ _)) as [t|cl msg] eqn:Hlogin.
  2:{ split_and!; [done..|]. eexists [_]. split_and!; simpl; try done.
      by repeat constructor. }
  unfold logging, mbind, M_bind, bind.
  set (w1 := set_log _ (add_event _ w)).
  pose proof (walk_manifest_tracks glob server src rb force last w1) as Hwalk.
  destruct (walk_manifest _ _ _ _ _ _ w1) as [r w2].
  destruct Hwalk as (Hfs & Hth & Hro & evs & Hev & HP & Hst & Hc).
  simpl in Hfs, Hth, Hro, Hev, HP, Hc.
  set (q := server (calls_of (events w2)) Quit).
  set (login := EvFtp (Connect (SERVER C) (USER C) (PSWRD C)) (Resp t)) in *.
  assert (∀ r', (∀ c', r' = Ok c' → r = Ok c') →
            tracks (walk_event force last (candidates glob (fs w) src) (fs w))
              (covers force last (candidates glob (fs w) src) (fs w)) 0%nat w
              (r', add_event (EvFtp Quit q) w2)) as Hend.
  { intros r' Hr. split_and!; simpl; [congruence..|].
    exists ([login] ++ evs ++ [EvFtp Quit q]). split_and!.
    - rewrite Hev. by rewrite <- !app_assoc.
    - apply Forall_app. split; [by repeat constructor|].
      apply Forall_app. split; [done | by repeat constructor].
    - rewrite !stored_app, !attempts_app.
      unfold stored at 1 3, attempts at 1 3, login. simpl. lia.
    - intros c' Hc'. destruct (Hc c' (Hr c' Hc')) as [-> Hcov]. split.
      + rewrite !attempts_app. unfold attempts at 2 4, login. simpl. lia.
      + by apply covers_app. }
  unfold ftp. rewrite outcome_quit. fold q.
  destruct q as [t'|[] msg]; simpl; apply Hend; done.
Qed.

(** Lines 68-72 read the cutoff and change nothing. *)
Lemma read_last_update_cutoff w :
  read_last_update C w = (Ok (cutoff C (fs w)), w).
Proof.
  unfold read_last_update, cutoff, os_path_exists, os_path_getmtime,
    mbind, M_bind, bind, mret, M_ret, ret.
  destruct (fs w !! LAST_UPDATE_FILENAME C) as [f|] eqn:Hm.
  - rewrite bool_decide_eq_true_2 by eauto. by rewrite Hm.
  - rewrite bool_decide_eq_false_2; [done|]. by intros [? ?].
Qed.

(** The whole of [check_and_upload_files]. *)
Lemma run_summary src rb force w :
  run_outcome C now force (candidates glob (fs w) src) w
    (check_and_upload_files C glob server isoformat now src rb force w).
Proof.
  unfold check_and_upload_files.
  unfold mbind at 1, M_bind, bind. rewrite read_last_update_cutoff.
  unfold mbind at 1, M_bind, bind, utc_isoformat.
  destruct (isoformat (cutoff C (fs w))) as [stamp|].
  2:{ split; [done|]. exists []. rewrite app_nil_r. by split_and!. }
  unfold mbind at 1, M_bind, bind, logging at 1.
  set (w1 := set_log _ w).
  unfold mbind at 1, M_bind, bind.
  pose proof (session_tracks src rb force (cutoff C (fs w)) w1) as Hs.
  destruct (with_FTP _ _ _ w1) as [r w2].
  destruct Hs as (Hfs & Hth & Hro & evs & Hev & HP & Hst & Hc). simpl in *.
  destruct r as [c|e]; simpl.
  2:{ split; [done|]. exists evs. by split_and!. }
  destruct (Hc c eq_refl) as [Hcount Hcov]. simpl in Hcount.
  unfold logging, touch, mbind, M_bind, bind, mret, M_ret, ret.
  unfold run_outcome. destruct c as [|n]; simpl.
  - split; [done|]. exists evs. by split_and!.
  - case_bool_decide; simpl.
    + split; [done|]. exists evs. by split_and!.
    + split; [done|]. exists evs. split_and!; try done.
      * by rewrite Hev, <- app_assoc.
      * by rewrite Hfs.
Qed.

End Run_facts.

(* SPLIT *)
(** ** The answer to SITE CHMOD does not steer the run *)

Lemma calls_of_app (a b : list event) :
  calls_of (a ++ b) = calls_of a ++ calls_of b.
Proof. unfold calls_of. apply omap_app. Qed.

Lemma calls_of_blind (evs : list event) :
  calls_of (blind <$> evs) = calls_of evs.
Proof.
  induction evs as [|e evs IH]; [done|].
  destruct e as [| [] |]; unfold calls_of in *; csimpl; by rewrite ?IH.
Qed.

Lemma sim_calls w1 w2 : sim w1 w2 → calls_of (events w1) = calls_of (events w2).
Proof.
  intros (_ & _ & _ & _ & H).
  by rewrite <- (calls_of_blind (events w1)), H, calls_of_blind.
Qed.

Lemma sim_refl w : sim w w.
Proof. by unfold sim. Qed.

Section Blind.

Variable C : creds.
Variable glob : gmap string file -> string -> list string.
Variables s1 s2 : list ftp_call -> ftp_call -> reply.
Variable isoformat : Z -> option string.
Variable now : Z.
Hypothesis Hsame : same_but_sendcmd s1 s2.

Lemma sim_logging l1 msg1 l2 msg2 w1 w2 :
  sim w1 w2 → sim_out (logging l1 msg1 w1) (logging l2 msg2 w2).
Proof. intros (? & ? & ? & ? & ?). by unfold sim_out, sim, logging. Qed.

Lemma sim_bind {A B} (m1 m2 : M A) (k1 k2 : A → M B) w1 w2 :
  sim_out (m1 w1) (m2 w2) →
  (∀ a v1 v2, sim v1 v2 → sim_out (k1 a v1) (k2 a v2)) →
  sim_out ((m1 ≫= k1) w1) ((m2 ≫= k2) w2).
Proof.
  unfold mbind, M_bind, bind. intros [Hr Hw] Hk.
  destruct (m1 w1) as [[a1|e1] v1], (m2 w2) as [[a2|e2] v2];
    simpl in *; simplify_eq; [by apply Hk | by split].
Qed.

Lemma sim_ftp c w1 w2 :
  is_sendcmd c = false → sim w1 w2 → sim_out (ftp s1 c w1) (ftp s2 c w2).
Proof.
  intros Hc Hsim. pose proof (sim_calls _ _ Hsim) as Hcalls.
  destruct Hsim as (Hfs & Hwd & Hth & Hro & Hev).
  unfold ftp. rewrite Hcalls, (Hsame _ c Hc), (Hsame _ Prepare eq_refl).
  destruct (outcome_of c _ _) as [[t|cl msg]|]; (split; [done|]).
  - destruct c; split_and!; simpl; try done.
    all: by rewrite !fmap_app, Hev.
  - split_and!; simpl; try done. by rewrite !fmap_app, Hev.
  - split_and!; simpl; try done. by rewrite !fmap_app, Hev.
Qed.

Lemma loosely_bind {A B} (m1 m2 : M A) (k1 k2 : A → M B) w1 w2 :
  sim_out (m1 w1) (m2 w2) →
  (∀ a v1 v2, sim v1 v2 → loosely (k1 a v1) (k2 a v2)) →
  loosely ((m1 ≫= k1) w1) ((m2 ≫= k2) w2).
Proof.
  unfold mbind, M_bind, bind. intros [Hr Hw] Hk.
  destruct (m1 w1) as [[a1|e1] v1], (m2 w2) as [[a2|e2] v2];
    simpl in *; simplify_eq; [by apply Hk | split; auto].
Qed.

(** The two answers to SITE CHMOD may differ; a refused line is refused
    on both sides. *)
Lemma loosely_sendcmd cmd (k1 k2 : string → string) w1 w2 :
  sim w1 w2 →
  loosely ((res2 ← ftp s1 (Sendcmd cmd); logging DEBUG (k1 res2)) w1)
          ((res2 ← ftp s2 (Sendcmd cmd); logging DEBUG (k2 res2)) w2).
Proof.
  intros (Hfs & Hwd & Hth & Hro & Hev).
  unfold ftp, outcome_of, logging, mbind, M_bind, bind, loosely, sim.
  destruct (illegal (Sendcmd cmd)).
  - simpl. split_and!; try done; [|by right]. by rewrite !fmap_app, Hev.
  - destruct (s1 _ _), (s2 _ _); simpl; split_and!; try done; try (by left).
    all: by rewrite !fmap_app, Hev.
Qed.

(** The [try] statement of [upload_file]: what the handler catches on
    both sides becomes a normal return, and what passes it is the same on
    both sides. *)
Lemma sim_try (body1 body2 : M unit) (msg1 msg2 : exn → string) w1 w2 :
  loosely (body1 w1) (body2 w2) →
  sim_out (try_all_errors body1 (λ e, logging ERROR (msg1 e)) w1)
          (try_all_errors body2 (λ e, logging ERROR (msg2 e)) w2).
Proof.
  unfold try_all_errors, loosely, sim_out, sim, logging.
  destruct (body1 w1) as [[[]|[]] v1], (body2 w2) as [[[]|[]] v2]; simpl;
    intros ((? & ? & ? & ? & ?) & [[? ?]|?]); done.
Qed.

Lemma sim_open_rb path w1 w2 :
  sim w1 w2 → sim_out (open_rb path w1) (open_rb path w2).
Proof.
  intros (Hfs & Hwd & Hth & Hro & Hev). unfold open_rb, sim_out, sim. rewrite Hfs.
  destruct (fs w2 !! path); simpl; split_and!; try done.
  all: by rewrite !fmap_app, Hev.
Qed.

Lemma sim_upload_file local filename rb sub perm w1 w2 :
  sim w1 w2 →
  sim_out (upload_file s1 local filename rb sub perm w1)
          (upload_file s2 local filename rb sub perm w2).
Proof.
  intros Hsim. unfold upload_file.
  apply sim_bind; [|intros _ v1 v2 Hv; apply sim_bind;
                     [by apply sim_ftp | by intros; split]].
  apply (sim_try _ _ (λ e, "FTP Error: '" +:+ exn_str e +:+ "'")
                     (λ e, "FTP Error: '" +:+ exn_str e +:+ "'")).
  apply loosely_bind; [by apply sim_open_rb|].
  intros fp v1 v2 Hv.
  apply loosely_bind; [by apply sim_ftp|].
  intros _ u1 u2 Hu.
  apply loosely_bind; [by apply sim_logging|].
  intros _ x1 x2 Hx.
  apply loosely_bind; [by apply sim_ftp|].
  intros res y1 y2 Hy.
  destruct (negb (posixpath.startswith res "226")).
  - apply loosely_bind; [by apply sim_logging|].
    intros _ z1 z2 Hz. split; [by apply sim_logging | by left].
  - apply loosely_bind; [by apply sim_logging|].
    intros _ z1 z2 Hz.
    by apply (loosely_sendcmd _ (λ r, "Permissions change: '" +:+ r +:+ "'")
                                (λ r, "Permissions change: '" +:+ r +:+ "'")).
Qed.

Lemma sim_for_each {A} (xs : list A) (body1 body2 : nat → A → M nat) :
  (∀ x c w1 w2, sim w1 w2 → sim_out (body1 c x w1) (body2 c x w2)) →
  ∀ c w1 w2, sim w1 w2 →
    sim_out (for_each xs body1 c w1) (for_each xs body2 c w2).
Proof.
  intros Hbody. induction xs as [|x xs IH]; intros c w1 w2 Hsim; simpl.
  - by split.
  - apply sim_bind; [by apply Hbody | intros; by apply IH].
Qed.

Lemma sim_visit rb force last sub perm c f w1 w2 :
  sim w1 w2 →
  sim_out (visit s1 rb force last sub perm c f w1)
          (visit s2 rb force last sub perm c f w2).
Proof.
  intros Hsim. unfold visit. apply sim_bind.
  - unfold changed_since. destruct force; [by split|].
    destruct Hsim as (Hfs & ? & ? & ? & ?).
    unfold os_path_getmtime, mbind, M_bind, bind, sim_out, sim. rewrite Hfs.
    by destruct (fs w2 !! f).
  - intros [] v1 v2 Hv; [|by split].
    apply sim_bind; [by apply sim_upload_file | by intros; split].
Qed.

Lemma sim_walk_manifest src rb force last w1 w2 :
  sim w1 w2 →
  sim_out (walk_manifest glob s1 src rb force last w1)
          (walk_manifest glob s2 src rb force last w2).
Proof.
  apply sim_for_each. intros [[sub spec] perm] c v1 v2 Hv.
  unfold visit_entry. rewrite (proj1 Hv).
  apply sim_for_each; [|done]. intros. by apply sim_visit.
Qed.

Lemma sim_with_FTP (body1 body2 : M nat) w1 w2 :
  (∀ v1 v2, sim v1 v2 → sim_out (body1 v1) (body2 v2)) →
  sim w1 w2 →
  sim_out (with_FTP C s1 body1 w1) (with_FTP C s2 body2 w2).
Proof.
  intros Hbody Hsim. unfold with_FTP.
  pose proof (sim_ftp (Connect (SERVER C) (USER C) (PSWRD C)) w1 w2
                eq_refl Hsim) as [Hr Hw].
  destruct (ftp s1 _ w1) as [[t1|e1] v1], (ftp s2 _ w2) as [[t2|e2] v2];
    simpl in *; simplify_eq; [|by split].
  pose proof (Hbody v1 v2 Hw) as [Hr' Hw'].
  destruct (body1 v1) as [r1 u1], (body2 v2) as [r2 u2]; simpl in *.
  pose proof (sim_ftp Quit u1 u2 eq_refl Hw') as [Hq Hu].
  destruct (ftp s1 Quit u1) as [[q1|[[]| |]] x1],
           (ftp s2 Quit u2) as [[q2|[[]| |]] x2];
    simpl in *; simplify_eq; by split.
Qed.

(** Two servers that answer every call but [sendcmd] alike lead
    [check_and_upload_files] to the same result, the same local files
    and, up to the answers to [sendcmd], the same trace. *)
Lemma sim_check_and_upload_files src rb force w1 w2 :
  sim w1 w2 →
  sim_out (check_and_upload_files C glob s1 isoformat now src rb force w1)
          (check_and_upload_files C glob s2 isoformat now src rb force w2).
Proof.
  intros Hsim. unfold check_and_upload_files.
  apply sim_bind.
  { rewrite !read_last_update_cutoff. rewrite (proj1 Hsim). by split. }
  intros last v1 v2 Hv.
  apply sim_bind.
  { unfold utc_isoformat. by destruct (isoformat last). }
  intros stamp t1 t2 Ht.
  apply sim_bind; [by apply sim_logging|]. intros _ u1 u2 Hu.
  apply sim_bind.
  { apply sim_with_FTP; [|done]. intros x1 x2 Hx.
    apply sim_bind; [by apply sim_logging|].
    intros. by apply sim_walk_manifest. }
  intros c x1 x2 Hx.
  apply sim_bind; [by apply sim_logging|].
  intros _ y1 y2 (Hfs & ? & ? & Hro & Hev).
  apply sim_bind; [|by intros; split].
  destruct (0 <? c)%nat; [|by split].
  unfold touch, sim_out, sim. rewrite Hro, Hfs.
  case_bool_decide; simpl; split_and!; try done.
  by rewrite !fmap_app, Hev.
Qed.

End Blind.
(* SPLIT *)

(** ** Which errors end the run *)

Section Returns.

Variable C : creds.
Variable glob : gmap string file -> string -> list string.
Variable server : list ftp_call -> ftp_call -> reply.
Variable isoformat : Z -> option string.
Variable now : Z.

Lemma caught_bind {A B} (m : M A) (k : A → M B) w :
  caught (m w).1 → (∀ a v, caught (k a v).1) → caught ((m ≫= k) w).1.
Proof.
  unfold mbind, M_bind, bind. intros Hm Hk.
  destruct (m w) as [[a|e] v]; [apply Hk | exact Hm].
Qed.

Lemma bind_Ok {A B} (m : M A) (k : A → M B) w a v :
  m w = (Ok a, v) → (m ≫= k) w = k a v.
Proof. unfold mbind, M_bind, bind. by intros ->. Qed.

Lemma try_returns (body : M unit) (msg : exn → string) w :
  caught (body w).1 →
  (try_all_errors body (λ e, logging ERROR (msg e)) w).1 = Ok ().
Proof.
  unfold try_all_errors. by destruct (body w) as [[[]|[]] v].
Qed.

Lemma caught_open_rb path w : caught (open_rb path w).1.
Proof. unfold open_rb. by destruct (fs w !! path). Qed.

(** A call whose command line [FTP.putline] takes returns or raises one
    of [ftplib.all_errors]. *)
Lemma caught_ftp c w : illegal c = false → caught (ftp server c w).1.
Proof.
  intros Hc. unfold ftp. rewrite (outcome_legal _ _ _ Hc).
  by destruct (server _ c).
Qed.

(** When the entry's directory and the file name hold no line break,
    [upload_file] is its [try] statement, which returns, followed by the
    change back to the base directory, which decides the result. *)
Lemma upload_file_ending local filename rb sub perm w :
  has_newline (posixpath.join "/" [rb; sub]) = false →
  has_newline filename = false →
  ∃ v, fs v = fs w ∧
    upload_file server local filename rb sub perm w =
    (ftp server (Cwd (posixpath.join "/" [rb]));; mret ()) v.
Proof.
  intros Hdir Hname. unfold upload_file.
  match goal with
  | |- context [try_all_errors ?b ?h] => set (body := b); set (handler := h)
  end.
  assert (caught (body w).1) as Hc.
  { subst body.
    apply caught_bind; [apply caught_open_rb|]. intros fp v.
    apply caught_bind; [by apply caught_ftp|]. intros _ v1.
    apply caught_bind; [done|]. intros _ v2.
    assert (illegal (Storbinary ("STOR " +:+ filename) fp) = false) as Hstor.
    { simpl. by rewrite has_newline_app, Hname. }
    apply caught_bind; [by apply caught_ftp|]. intros res v3.
    destruct (negb _).
    - by apply caught_bind.
    - apply caught_bind; [done|]. intros _ v4.
      apply caught_bind; [|done].
      apply caught_ftp. by apply (chmod_line_legal _ _ fp). }
  assert ((try_all_errors body handler w).1 = Ok ()) as Hr
    by apply (try_returns body (λ e, "FTP Error: '" +:+ exn_str e +:+ "'") w Hc).
  pose proof (upload_file_effects server local filename rb sub perm w)
    as (Hfs & _).
  unfold upload_file in Hfs. fold body handler in Hfs.
  destruct (try_all_errors body handler w) as [r v] eqn:Htry.
  simpl in Hr. subst r. exists v.
  rewrite (bind_Ok _ _ _ _ _ Htry) in Hfs |- *. split; [|done].
  revert Hfs. unfold ftp, mbind, M_bind, bind, mret, M_ret, ret.
  by destruct (outcome_of _ _ _) as [[]|].
Qed.

Lemma upload_file_returns local filename rb sub perm w :
  has_newline rb = false → has_newline sub = false →
  has_newline filename = false →
  (∀ h, ∃ t, server h (Cwd (posixpath.join "/" [rb])) = Resp t) →
  (upload_file server local filename rb sub perm w).1 = Ok ().
Proof.
  intros Hrb Hsub Hname Hcwd.
  destruct (upload_file_ending local filename rb sub perm w) as (v & _ & ->);
    [by apply has_newline_join; repeat constructor | done |].
  unfold ftp, mbind, M_bind, bind.
  rewrite outcome_legal by (by apply has_newline_join; repeat constructor).
  by destruct (Hcwd (calls_of (events v))) as [t ->].
Qed.

Lemma for_each_returns {A} (I : world → Prop) (xs : list A)
    (body : nat → A → M nat) :
  (∀ x c w, x ∈ xs → I w → (∃ c', (body c x w).1 = Ok c') ∧ I (body c x w).2) →
  ∀ c w, I w →
    (∃ c', (for_each xs body c w).1 = Ok c') ∧ I (for_each xs body c w).2.
Proof.
  induction xs as [|x xs IH]; intros Hbody c w Hw; simpl.
  - split; [by exists c | done].
  - unfold mbind, M_bind, bind.
    destruct (Hbody x c w ltac:(left) Hw) as [[c1 Hc1] Hw1].
    destruct (body c x w) as [r w1]. simpl in *. subst r.
    apply IH; [|done]. intros y c0 w0 Hy. apply Hbody. by right.
Qed.

Lemma visit_returns rb force last sub perm c f w :
  has_newline rb = false → has_newline sub = false →
  has_newline (posixpath.basename f) = false →
  (∀ h, ∃ t, server h (Cwd (posixpath.join "/" [rb])) = Resp t) →
  force = true ∨ is_Some (fs w !! f) →
  ∃ c', (visit server rb force last sub perm c f w).1 = Ok c'.
Proof.
  intros Hrb Hsub Hname Hcwd Hf. unfold visit, changed_since.
  pose proof (upload_file_returns f (posixpath.basename f) rb sub perm w
                Hrb Hsub Hname Hcwd) as Hup.
  assert (∃ c', ((upload_file server f (posixpath.basename f) rb sub perm;;
                  mret (S c)) w).1 = Ok c') as Hgo.
  { unfold mbind, M_bind, bind.
    destruct (upload_file _ _ _ _ _ _ w) as [r v]. simpl in Hup. subst r.
    by exists (S c). }
  destruct force; [exact Hgo|].
  destruct Hf as [?|[x Hx]]; [done|].
  unfold os_path_getmtime, mbind, M_bind, bind, mret, M_ret, ret in *.
  rewrite Hx. destruct (last <? mtime x); [exact Hgo | by exists c].
Qed.

Lemma walk_manifest_returns src rb force last w :
  has_newline rb = false →
  (∀ path, path ∈ candidates glob (fs w) src →
           has_newline (posixpath.basename path) = false) →
  (∀ h, ∃ t, server h (Cwd (posixpath.join "/" [rb])) = Resp t) →
  force = true ∨ (∀ path, path ∈ candidates glob (fs w) src →
                          is_Some (fs w !! path)) →
  ∃ c, (walk_manifest glob server src rb force last w).1 = Ok c.
Proof.
  intros Hrb Hnames Hcwd Hf. unfold walk_manifest.
  refine (proj1 (for_each_returns (λ v, fs v = fs w) SUB_PATHS _ _ 0%nat w eq_refl)).
  intros entry c v Hentry Hv. split.
  2:{ rewrite <- Hv. apply visit_entry_tracks. }
  pose proof (proj1 (Forall_forall _ _) SUB_PATHS_legal entry Hentry) as Hsub.
  destruct entry as [[sub spec] perm]. unfold visit_entry.
  refine (proj1 (for_each_returns (λ u, fs u = fs w) _ _ _ c v Hv)).
  intros f c0 u Hin Hu. split.
  2:{ rewrite <- Hu. apply visit_tracks. }
  assert (f ∈ candidates glob (fs w) src) as Hcand.
  { apply list_elem_of_bind. exists (sub, spec, perm). split; [|done].
    unfold entry_paths. simpl. by rewrite <- Hv. }
  apply visit_returns; [done | done | by apply Hnames | done |].
  destruct Hf as [?|Hf]; [by left | right]. rewrite Hu. by apply Hf.
Qed.

(** When nothing fails outside the [try] statement of [upload_file], no
    command line holds a line break and the marker can be written,
    [check_and_upload_files] returns. *)
Lemma check_and_upload_files_returns src rb force w :
  is_Some (isoformat (cutoff C (fs w))) →
  (∀ h, ∃ t, server h (Connect (SERVER C) (USER C) (PSWRD C)) = Resp t) →
  (∀ h, ∃ t, server h (Cwd (posixpath.join "/" [rb])) = Resp t) →
  (∀ h msg, server h Quit ≠ Fail FtplibError msg) →
  has_newline rb = false →
  (∀ path, path ∈ candidates glob (fs w) src →
           has_newline (posixpath.basename path) = false) →
  force = true ∨ (∀ path, path ∈ candidates glob (fs w) src →
                          is_Some (fs w !! path)) →
  LAST_UPDATE_FILENAME C ∉ read_only w →
  ∃ c, (check_and_upload_files C glob server isoformat now src rb force w).1
       = Ok c.
Proof.
  intros [stamp Hiso] Hlogin Hcwd Hquit Hrb Hnames Hf Hmarker.
  unfold check_and_upload_files.
  unfold mbind at 1, M_bind, bind. rewrite read_last_update_cutoff.
  unfold mbind at 1, M_bind, bind, utc_isoformat. rewrite Hiso.
  unfold mbind at 1, M_bind, bind, logging at 1.
  set (w1 := set_log _ w).
  unfold mbind at 1, M_bind, bind.
  assert (∃ c, (with_FTP C server
                  (logging DEBUG ("Logged into '" +:+ SERVER C +:+ "'");;
                   walk_manifest glob server src rb force (cutoff C (fs w))) w1).1
               = Ok c) as [c Hc].
  { unfold with_FTP, ftp at 1. rewrite outcome_connect. cbv zeta.
    destruct (Hlogin (calls_of (events w1))) as [t ->].
    unfold logging, mbind, M_bind, bind.
    set (w2 := set_log _ (add_event _ w1)).
    destruct (walk_manifest_returns src rb force (cutoff C (fs w)) w2
                Hrb Hnames Hcwd Hf) as [c Hc].
    destruct (walk_manifest _ _ _ _ _ _ w2) as [r w3]. simpl in Hc. subst r.
    exists c. unfold ftp. rewrite outcome_quit.
    pose proof (Hquit (calls_of (events w3))) as Hq.
    destruct (server _ Quit) as [|[] msg]; try done. by destruct (Hq msg). }
  pose proof (session_tracks C glob server src rb force (cutoff C (fs w)) w1)
    as (_ & _ & Hro & _).
  destruct (with_FTP _ _ _ w1) as [r w2]. simpl in Hc, Hro. subst r.
  exists c. unfold_m. destruct (0 <? c)%nat; [|done]. simpl.
  rewrite Hro. by rewrite bool_decide_eq_false_2.
Qed.

End Returns.

(** ** Nothing below [handle_options] calls [sys.exit] *)

Section Exits.

Variable C : creds.
Variable glob : gmap string file -> string -> list string.
Variable server : list ftp_call -> ftp_call -> reply.
Variable isoformat : Z -> option string.
Variable now : Z.

Lemma no_exit_bind {A B} (m : M A) (k : A → M B) w :
  no_exit (m w).1 → (∀ a v, no_exit (k a v).1) → no_exit ((m ≫= k) w).1.
Proof.
  unfold mbind, M_bind, bind. intros Hm Hk.
  destruct (m w) as [[a|e] v]; [apply Hk | exact Hm].
Qed.

Lemma no_exit_for_each {A} (xs : list A) (body : nat → A → M nat) c w :
  (∀ x c v, no_exit (body c x v).1) → no_exit (for_each xs body c w).1.
Proof.
  intros Hbody. revert c w. induction xs as [|x xs IH]; intros c w; [done|].
  simpl. apply no_exit_bind; [apply Hbody | intros; apply IH].
Qed.

Lemma no_exit_ftp c w : no_exit (ftp server c w).1.
Proof. unfold ftp. by destruct (outcome_of _ _ _) as [[]|]. Qed.

Lemma no_exit_upload_file local filename rb sub perm w :
  no_exit (upload_file server local filename rb sub perm w).1.
Proof.
  destruct (upload_file_course server local filename rb sub perm w)
    as (_ & _ & back & _ & _ & _ & _ & _ & _ & -> & _).
  by destruct back as [[]|].
Qed.

Lemma no_exit_visit rb force last sub perm c f w :
  no_exit (visit server rb force last sub perm c f w).1.
Proof.
  unfold visit. apply no_exit_bind.
  - unfold changed_since, os_path_getmtime, mbind, M_bind, bind.
    destruct force; [done|]. by destruct (fs w !! f).
  - intros [] v; [|done].
    apply no_exit_bind; [apply no_exit_upload_file | done].
Qed.

Lemma no_exit_walk_manifest src rb force last w :
  no_exit (walk_manifest glob server src rb force last w).1.
Proof.
  apply no_exit_for_each. intros [[sub spec] perm] c v.
  apply no_exit_for_each. intros. apply no_exit_visit.
Qed.

Lemma no_exit_with_FTP {A} (body : M A) w :
  (∀ v, no_exit (body v).1) → no_exit (with_FTP C server body w).1.
Proof.
  intros Hbody. unfold with_FTP.
  pose proof (no_exit_ftp (Connect (SERVER C) (USER C) (PSWRD C)) w) as Hin.
  destruct (ftp server _ w) as [[t|e] v]; [|exact Hin].
  pose proof (Hbody v) as Hb. destruct (body v) as [r u].
  pose proof (no_exit_ftp Quit u) as Hq.
  by destruct (ftp server Quit u) as [[q|[[]| |]] x].
Qed.

(** Whatever ends [check_and_upload_files], it is not [SystemExit]. *)
Lemma no_exit_check_and_upload_files src rb force w :
  no_exit (check_and_upload_files C glob server isoformat now src rb force w).1.
Proof.
  unfold check_and_upload_files.
  apply no_exit_bind; [by rewrite read_last_update_cutoff|]. intros last v.
  apply no_exit_bind; [unfold utc_isoformat; by destruct (isoformat last)|].
  intros stamp v1. apply no_exit_bind; [done|]. intros _ v2.
  apply no_exit_bind.
  { apply no_exit_with_FTP. intros u. apply no_exit_bind; [done|].
    intros. apply no_exit_walk_manifest. }
  intros c v3. apply no_exit_bind; [done|]. intros _ v4.
  apply no_exit_bind; [|done].
  destruct (0 <? c)%nat; [|done]. unfold touch. by case_bool_decide.
Qed.

End Exits.

(** ** The claims *)

Lemma new_events_app w w' (evs : list event) :
  events w' = events w ++ evs → new_events w w' = evs.
Proof. intros H. unfold new_events. rewrite H. apply drop_app_length. Qed.

Lemma new_log_app w w' (l : list (level * string)) :
  log w' = log w ++ l → new_log w w' = l.
Proof. intros H. unfold new_log. rewrite H. apply drop_app_length. Qed.

Lemma attempted_snoc_touch path evs marker t :
  attempted path (evs ++ [EvTouch marker t]) ↔ attempted path evs.
Proof.
  unfold attempted. split; intros [ok H]; exists ok.
  - apply elem_of_app in H as [H|H]; [done|].
    by apply list_elem_of_singleton in H.
  - apply elem_of_app. by left.
Qed.

Lemma walk_event_not_touch force last paths m e :
  walk_event force last paths m e → is_touch e = false.
Proof. by destruct e. Qed.

Lemma qualifies_changed force last (m : gmap string file) path :
  qualifies force last m path = true ↔
  force = true ∨ ∃ x, m !! path = Some x ∧ last < mtime x.
Proof.
  unfold qualifies. destruct force; simpl; [by split; auto|].
  destruct (m !! path) as [x|]; split.
  - intros H%Z.ltb_lt. right. eauto.
  - intros [?|(y & [= <-] & H)]; [done | by apply Z.ltb_lt].
  - done.
  - by intros [?|(y & ? & _)].
Qed.

Section Trace.

Variable C : creds.
Variable glob : gmap string file -> string -> list string.
Variable server : list ftp_call -> ftp_call -> reply.
Variable isoformat : Z -> option string.
Variable now : Z.

(** The events of a run, split into those of the session and the final
    touch of the marker. *)
Lemma run_new_events src rb force w :
  let rw := check_and_upload_files C glob server isoformat now src rb force w in
  ∃ evs tail,
    new_events w rw.2 = evs ++ tail ∧
    Forall (walk_event force (cutoff C (fs w)) (candidates glob (fs w) src) (fs w)) evs ∧
    (stored evs ≤ attempts evs)%nat ∧
    match rw.1 with
    | Ok c =>
        c = attempts evs ∧
        covers force (cutoff C (fs w)) (candidates glob (fs w) src) (fs w) evs ∧
        if (0 <? c)%nat then
          tail = [EvTouch (LAST_UPDATE_FILENAME C) now] ∧
          fs rw.2 = touched (LAST_UPDATE_FILENAME C) now (fs w)
        else tail = [] ∧ fs rw.2 = fs w
    | Raise _ => tail = [] ∧ fs rw.2 = fs w
    end.
Proof.
  intros rw. subst rw.
  destruct (run_summary C glob server isoformat now src rb force w)
    as (_ & evs & HP & Hst & Hout).
  destruct (check_and_upload_files _ _ _ _ _ _ _ _ _).1 as [c|e] eqn:Hr;
    cbv beta iota.
  - destruct Hout as (Hc & Hcov & Hout). destruct (0 <? c)%nat eqn:Hpos.
    + destruct Hout as [Hev Hfs]. exists evs, [EvTouch (LAST_UPDATE_FILENAME C) now].
      rewrite (new_events_app _ _ _ Hev). by split_and!.
    + destruct Hout as [Hev Hfs]. exists evs, [].
      rewrite (new_events_app _ _ _ Hev), app_nil_r. by split_and!.
  - destruct Hout as [Hev Hfs]. exists evs, [].
    rewrite (new_events_app _ _ _ Hev), app_nil_r. by split_and!.
Qed.

End Trace.

Import Scenario.
Import More_scenarios.

(** The number a run reports is the number of calls of [upload_file],
    whether or not a call stored its file. *)
Lemma count_counts_calls (C : creds)
    (glob : gmap string file → string → list string)
    (server : list ftp_call → ftp_call → reply)
    (isoformat : Z → option string)
    (now : Z) (src rb : string) (force : bool) (w : world) (c : nat) :
  let rw := check_and_upload_files C glob server isoformat now src rb force w in
  rw.1 = Ok c →
  c = attempts (new_events w rw.2) ∧ (stored (new_events w rw.2) ≤ c)%nat.
Proof.
  intros rw Hr. subst rw.
  destruct (run_new_events C glob server isoformat now src rb force w)
    as (evs & tail & Hev & _ & Hle & Hout).
  rewrite Hr in Hout. destruct Hout as (-> & _ & Hout).
  assert (attempts tail = 0%nat ∧ stored tail = 0%nat) as [Ha Hs].
  { destruct (0 <? attempts evs)%nat; by destruct Hout as [-> _]. }
  rewrite Hev, attempts_app, stored_app, Ha, Hs. lia.
Qed.

(** The local files after a run: the marker is touched exactly when the
    run returns a positive count, and nothing else changes. *)
Lemma marker_follows_count (C : creds)
    (glob : gmap string file → string → list string)
    (server : list ftp_call → ftp_call → reply)
    (isoformat : Z → option string)
    (now : Z) (src rb : string) (force : bool) (w : world) :
  let rw := check_and_upload_files C glob server isoformat now src rb force w in
  fs rw.2 = match rw.1 with
            | Ok (S _) => touched (LAST_UPDATE_FILENAME C) now (fs w)
            | _ => fs w
            end.
Proof.
  intros rw. subst rw.
  destruct (run_new_events C glob server isoformat now src rb force w)
    as (evs & tail & _ & _ & _ & Hout).
  destruct (check_and_upload_files _ _ _ _ _ _ _ _ _).1 as [[|n]|e];
    simpl in Hout; tauto.
Qed.

(** C1 (the code departs from the claim).  The claim: the reported count
    leaves out a file whose transfer failed and includes a later file whose
    transfer succeeded.  The run below has two qualifying pages; the server
    refuses the store of [index.html] and accepts [about.html].  The second
    page is attempted and stored, as the claim says, but the count the run
    logs is 2, not 1: [count] is incremented after every call of
    [upload_file], which reports nothing back. *)
Lemma C1_failed_transfer_is_counted :
  let rw := check_and_upload_files C0 glob0 srv_reject_index iso0 1000
              "output" "site" false (start fs_pages) in
  rw.1 = Ok 2%nat ∧
  stored (events rw.2) = 1%nat ∧
  events rw.2 =
    [EvFtp (Connect "ftp.example.org" "user" "secret") (Resp "230 Login successful.");
     EvOpen "output/index.html" true;
     EvFtp (Cwd "/site/") (Resp "250 Directory successfully changed.");
     EvFtp (Storbinary "STOR index.html" [Byte.x68; Byte.x69])
           (Fail FtplibError "553 Could not create file.");
     EvFtp (Cwd "/site") (Resp "250 Directory successfully changed.");
     EvOpen "output/about.html" true;
     EvFtp (Cwd "/site/") (Resp "250 Directory successfully changed.");
     EvFtp (Storbinary "STOR about.html" [Byte.x6f; Byte.x6b])
           (Resp "226 Transfer complete.");
     EvFtp (Sendcmd "SITE CHMOD 664 about.html") (Resp "200 SITE CHMOD command ok.");
     EvFtp (Cwd "/site") (Resp "250 Directory successfully changed.");
     EvFtp Quit (Resp "221 Goodbye.");
     EvTouch "lastupdate.txt" 1000] ∧
  log rw.2 =
    [(INFO, "Last update date/time=0");
     (DEBUG, "Logged into 'ftp.example.org'");
     (DEBUG, "Changed directory to /site/");
     (ERROR, "FTP Error: '553 Could not create file.'");
     (DEBUG, "Changed directory to /site/");
     (INFO, "Uploaded 'about.html' to /site/");
     (DEBUG, "Permissions change: '200 SITE CHMOD command ok.'");
     (INFO, "Uploaded 2 files.")].
Proof. vm_compute. by split_and!. Qed.

(** C2 (the code departs from the claim).  The claim: every per-file
    transfer error is caught inside [upload_file] and the loop goes on to
    the next candidate.  Errors raised inside the [try] statement are caught
    (lemma [upload_file_course]), but the change back to the base directory
    on line 64 is outside it.  Below the connection is lost during the
    first transfer: the [EOFError] of the store is caught and logged, the
    [cwd] that follows raises [OSError], which leaves [upload_file], both
    loops and the function; [about.html], which qualifies, is never
    attempted. *)
Lemma C2_lost_connection_ends_the_walk :
  let rw := check_and_upload_files C0 glob0 srv_drop iso0 1000
              "output" "site" false (start fs_pages) in
  about ∈ candidates glob0 fs_pages "output" ∧
  qualifies false (cutoff C0 fs_pages) fs_pages about = true ∧
  rw.1 = Raise (Exn OsError "[Errno 32] Broken pipe") ∧
  events rw.2 =
    [EvFtp (Connect "ftp.example.org" "user" "secret") (Resp "230 Login successful.");
     EvOpen "output/index.html" true;
     EvFtp (Cwd "/site/") (Resp "250 Directory successfully changed.");
     EvFtp (Storbinary "STOR index.html" [Byte.x68; Byte.x69]) (Fail EofError "");
     EvFtp (Cwd "/site") (Fail OsError "[Errno 32] Broken pipe");
     EvFtp Quit (Fail OsError "[Errno 32] Broken pipe")] ∧
  log rw.2 =
    [(INFO, "Last update date/time=0");
     (DEBUG, "Logged into 'ftp.example.org'");
     (DEBUG, "Changed directory to /site/");
     (ERROR, "FTP Error: ''")].
Proof.
  vm_compute. split_and!; try done.
  apply list_elem_of_In. vm_compute. tauto.
Qed.

(** C3 (the code departs from the claim).  The claim: a run that uploads
    no file leaves the marker's modification time unchanged.  Below the
    server refuses every store, so no file is uploaded, yet the marker goes
    from time 50 to the time of the run: the guard of line 94 tests
    [count], which counts calls of [upload_file], not uploads (the defect
    of C1). *)
Lemma C3_marker_touched_without_upload :
  let rw := check_and_upload_files C0 glob0 srv_read_only iso0 1000
              "output" "site" false (start fs_marked) in
  rw.1 = Ok 2%nat ∧
  stored (events rw.2) = 0%nat ∧
  mtime <$> fs_marked !! LAST_UPDATE_FILENAME C0 = Some 50 ∧
  mtime <$> fs rw.2 !! LAST_UPDATE_FILENAME C0 = Some 1000 ∧
  log rw.2 =
    [(INFO, "Last update date/time=50");
     (DEBUG, "Logged into 'ftp.example.org'");
     (DEBUG, "Changed directory to /site/");
     (ERROR, "FTP Error: '550 Permission denied.'");
     (DEBUG, "Changed directory to /site/");
     (ERROR, "FTP Error: '550 Permission denied.'");
     (INFO, "Uploaded 2 files.")].
Proof. vm_compute. by split_and!. Qed.

(** C4, as stated, fails: uploading files and finishing the walk does not
    bring the marker up to date when the run does not return.  Below both
    pages are stored and the walk is complete, then the server answers QUIT
    with an error reply, which [FTP.__exit__] lets through: the run ends
    with that error before line 93 and no marker exists afterwards. *)
Lemma C4_uploaded_but_marker_not_touched :
  let rw := check_and_upload_files C0 glob0 srv_bad_quit iso0 1000
              "output" "site" false (start fs_pages) in
  stored (new_events (start fs_pages) rw.2) = 2%nat ∧
  opened (new_events (start fs_pages) rw.2) =
    List.filter (qualifies false (cutoff C0 fs_pages) fs_pages)
                (candidates glob0 fs_pages "output") ∧
  rw.1 = Raise (Exn FtplibError "500 Unknown command.") ∧
  fs rw.2 !! LAST_UPDATE_FILENAME C0 = None ∧
  Forall (λ e, is_touch e = false) (events rw.2).
Proof. vm_compute. split_and!; try done. by repeat constructor. Qed.

(** C4, amended.  When a run returns and stored at least one file, the
    marker exists afterwards with the time of the touch as its modification
    time (created if it was absent); the touch is the last event of the
    run, after the session is closed, and the only touch.  With a clock
    that does not run backwards ([start <= now]) the marker is not older
    than the start of the run. *)
Theorem C4_marker_touched_after_uploads (C : creds)
    (glob : gmap string file → string → list string)
    (server : list ftp_call → ftp_call → reply) (isoformat : Z → option string)
    (now start_time : Z) (src rb : string) (force : bool) (w : world) (c : nat) :
  let rw := check_and_upload_files C glob server isoformat now src rb force w in
  rw.1 = Ok c →
  (0 < stored (new_events w rw.2))%nat →
  start_time ≤ now →
  ∃ f evs,
    fs rw.2 !! LAST_UPDATE_FILENAME C = Some f ∧
    mtime f = now ∧ start_time ≤ mtime f ∧
    new_events w rw.2 = evs ++ [EvTouch (LAST_UPDATE_FILENAME C) now] ∧
    Forall (λ e, is_touch e = false) evs.
Proof.
  intros rw Hr Hst Hclock. subst rw.
  destruct (run_new_events C glob server isoformat now src rb force w)
    as (evs & tail & Hev & HP & Hle & Hout).
  rewrite Hr in Hout. destruct Hout as (Hc & _ & Hout).
  destruct (0 <? c)%nat eqn:Hpos.
  - destruct Hout as [-> Hfs].
    exists (File now (match fs w !! LAST_UPDATE_FILENAME C with
                      | Some old => content old
                      | None => []
                      end)), evs.
    split_and!; try done.
    + rewrite Hfs. unfold touched. rewrite lookup_insert_eq.
      by destruct (fs w !! LAST_UPDATE_FILENAME C).
    + eapply Forall_impl; [exact HP|]. intros e. apply walk_event_not_touch.
  - destruct Hout as [-> _]. rewrite app_nil_r in Hev. rewrite Hev in Hst.
    apply Nat.ltb_ge in Hpos. lia.
Qed.

Lemma C4_marker_touched_after_uploads_witness :
  let rw := check_and_upload_files C0 glob0 srv_reject_index iso0 1000
              "output" "site" false (start fs_pages) in
  rw.1 = Ok 2%nat ∧
  (0 < stored (new_events (start fs_pages) rw.2))%nat ∧
  990 ≤ 1000 ∧
  ∃ f evs,
    fs rw.2 !! LAST_UPDATE_FILENAME C0 = Some f ∧
    mtime f = 1000 ∧ 990 ≤ mtime f ∧
    new_events (start fs_pages) rw.2 = evs ++ [EvTouch (LAST_UPDATE_FILENAME C0) 1000] ∧
    Forall (λ e, is_touch e = false) evs.
Proof.
  assert ((check_and_upload_files C0 glob0 srv_reject_index iso0 1000
             "output" "site" false (start fs_pages)).1 = Ok 2%nat) as H1
    by (vm_compute; reflexivity).
  assert (0 < stored (new_events (start fs_pages)
            (check_and_upload_files C0 glob0 srv_reject_index iso0 1000
               "output" "site" false (start fs_pages)).2))%nat as H2
    by (vm_compute; lia).
  assert (990 ≤ 1000) as H3 by lia.
  split; [exact H1|]. split; [exact H2|]. split; [exact H3|].
  exact (C4_marker_touched_after_uploads C0 glob0 srv_reject_index iso0 1000 990
           "output" "site" false (start fs_pages) 2 H1 H2 H3).
Defined.

(** What visiting one path adds to the trace: nothing when the path fails
    the test of line 81, else one course of [upload_file] on the path under
    its basename. *)
Lemma visit_course (server : list ftp_call → ftp_call → reply)
    (rb : string) (force : bool) (last : Z) (sub : string) (perm : Z)
    (c : nat) (f : string) (w : world) :
  let rw := visit server rb force last sub perm c f w in
  qualifies force last (fs w) f = false ∧ new_events w rw.2 = [] ∨
  qualifies force last (fs w) f = true ∧
  ∃ evs logs back,
    upload_course (fs w) f (posixpath.basename f) rb sub perm evs logs back ∧
    new_events w rw.2 = evs.
Proof.
  assert (∀ w', events w' = events w → new_events w w' = []) as Hnone.
  { intros w' H. apply new_events_app. by rewrite app_nil_r. }
  assert (qualifies force last (fs w) f = true →
          let rw := (upload_file server f (posixpath.basename f) rb sub perm;;
                     mret (S c)) w in
          qualifies force last (fs w) f = false ∧ new_events w rw.2 = [] ∨
          qualifies force last (fs w) f = true ∧
          ∃ evs logs back,
            upload_course (fs w) f (posixpath.basename f) rb sub perm evs logs back ∧
            new_events w rw.2 = evs) as Hgo.
  { intros Hq.
    destruct (upload_file_course server f (posixpath.basename f) rb sub perm w)
      as (evs & logs & back & Hev & _ & Hcourse & _).
    right. split; [done|]. exists evs, logs, back. split; [done|].
    apply new_events_app. revert Hev.
    unfold mbind, M_bind, bind, mret, M_ret, ret.
    by destruct (upload_file _ _ _ _ _ _ w) as [[[]|e] w']. }
  unfold visit, changed_since, qualifies in *.
  destruct force; simpl in *; [by apply Hgo|].
  unfold os_path_getmtime, mbind, M_bind, bind, mret, M_ret, ret in *.
  destruct (fs w !! f) as [x|]; simpl; [|by left; split; [|apply Hnone]].
  destruct (last <? mtime x);
    [by apply Hgo | by left; split; [|apply Hnone]].
Qed.

(** Whenever the loop reaches a path, [upload_file] is called on it
    exactly when it passes the test of line 81. *)
Lemma visit_attempts_iff (server : list ftp_call → ftp_call → reply)
    (rb : string) (force : bool) (last : Z) (sub : string) (perm : Z)
    (c : nat) (f : string) (w : world) :
  let rw := visit server rb force last sub perm c f w in
  attempted f (new_events w rw.2) ↔ qualifies force last (fs w) f = true.
Proof.
  intros rw. subst rw.
  destruct (visit_course server rb force last sub perm c f w)
    as [[Hq ->]|(Hq & evs & logs & back & Hcourse & ->)]; rewrite Hq.
  - split; [|done]. intros [ok H]. by apply elem_of_nil in H.
  - split; [done|]. intros _.
    destruct Hcourse; eexists; apply elem_of_cons; by left.
Qed.

(** Which paths a run calls [upload_file] on. *)
Lemma attempts_follow_line_81 (C : creds)
    (glob : gmap string file → string → list string)
    (server : list ftp_call → ftp_call → reply) (isoformat : Z → option string)
    (now : Z) (src rb : string) (force : bool) (w : world) (path : string) :
  let rw := check_and_upload_files C glob server isoformat now src rb force w in
  let changed := force = true ∨
                 ∃ x, fs w !! path = Some x ∧ cutoff C (fs w) < mtime x in
  path ∈ candidates glob (fs w) src →
  (attempted path (new_events w rw.2) → changed) ∧
  (∀ c, rw.1 = Ok c → (attempted path (new_events w rw.2) ↔ changed)).
Proof.
  intros rw changed Hcand. subst rw changed.
  destruct (run_new_events C glob server isoformat now src rb force w)
    as (evs & tail & Hev & HP & _ & Hout).
  assert (attempted path (new_events w
            (check_and_upload_files C glob server isoformat now src rb force w).2) →
          attempted path evs) as Hin.
  { rewrite Hev. destruct (check_and_upload_files _ _ _ _ _ _ _ _ _).1 as [c|e].
    - destruct Hout as (_ & _ & Hout). destruct (0 <? c)%nat.
      + destruct Hout as [-> _]. by rewrite attempted_snoc_touch.
      + destruct Hout as [-> _]. by rewrite app_nil_r.
    - destruct Hout as [-> _]. by rewrite app_nil_r. }
  assert (attempted path evs →
          force = true ∨ ∃ x, fs w !! path = Some x ∧ cutoff C (fs w) < mtime x)
    as Honly.
  { intros [ok Hopen]. apply qualifies_changed.
    rewrite Forall_forall in HP. by destruct (HP _ Hopen). }
  split; [by intros ?%Hin%Honly|].
  intros c Hr. split; [by intros ?%Hin%Honly|].
  intros Hch%qualifies_changed. rewrite Hr in Hout.
  destruct Hout as (_ & Hcov & _). rewrite Hev.
  destruct (Hcov path Hcand Hch) as [ok Hopen]. exists ok.
  apply elem_of_app. by left.
Qed.

(** C5, as stated, fails: a candidate newer than the cutoff is not always
    attempted, because an exception outside the [try] statement of
    [upload_file] ends the walk before it is reached.  Below the first match
    of the pattern is a dangling link: [getmtime] on line 81 raises, and
    [about.html], which is newer than the cutoff, is never attempted. *)
Lemma C5_changed_file_not_reached :
  let rw := check_and_upload_files C0 glob_link srv_ok iso0 1000
              "output" "site" false (start fs_pages) in
  about ∈ candidates glob_link fs_pages "output" ∧
  fs_pages !! about = Some about_file ∧
  cutoff C0 fs_pages < mtime about_file ∧
  rw.1 = Raise (no_such_file link) ∧
  ¬ attempted about (new_events (start fs_pages) rw.2).
Proof.
  split_and!.
  - apply list_elem_of_In. vm_compute. tauto.
  - by vm_compute.
  - by vm_compute.
  - by vm_compute.
  - intros [ok H]. apply list_elem_of_In in H. vm_compute in H.
    destruct H as [H|[H|[]]]; discriminate.
Qed.

(** C5, amended.  For a path some manifest pattern expands to, with [changed]
    standing for "[force_update] is set or the modification time is
    strictly greater than the cutoff": whenever the loop reaches the path,
    [upload_file] is called on it exactly when [changed]; over a whole run
    it is called only if [changed] (so never at or below the cutoff when
    [force_update] is off), and in a run that returns it is called exactly
    when [changed] (always above the cutoff, and on every match when
    [force_update] is set, whatever the times and whether or not there is
    a marker). *)
Theorem C5_attempted_iff_changed (C : creds)
    (glob : gmap string file → string → list string)
    (server : list ftp_call → ftp_call → reply) (isoformat : Z → option string)
    (now : Z) (src rb : string) (force : bool) (w : world) (path : string) :
  let rw := check_and_upload_files C glob server isoformat now src rb force w in
  let changed := force = true ∨
                 ∃ x, fs w !! path = Some x ∧ cutoff C (fs w) < mtime x in
  path ∈ candidates glob (fs w) src →
  (∀ sub perm c v,
     fs v = fs w →
     let vw := visit server rb force (cutoff C (fs w)) sub perm c path v in
     attempted path (new_events v vw.2) ↔ changed) ∧
  (attempted path (new_events w rw.2) → changed) ∧
  (∀ c, rw.1 = Ok c → (attempted path (new_events w rw.2) ↔ changed)).
Proof.
  intros rw changed Hcand. subst rw changed. split.
  - intros sub perm c v Hv vw. subst vw.
    rewrite visit_attempts_iff, Hv. apply qualifies_changed.
  - exact (attempts_follow_line_81 C glob server isoformat now src rb force w
             path Hcand).
Qed.

Lemma C5_attempted_iff_changed_witness :
  let rw := check_and_upload_files C0 glob0 srv_ok iso0 1000
              "output" "site" false (start fs_marked) in
  let changed := false = true ∨
                 ∃ x, fs_marked !! index = Some x ∧ cutoff C0 fs_marked < mtime x in
  index ∈ candidates glob0 fs_marked "output" ∧
  (∀ sub perm c v,
     fs v = fs (start fs_marked) →
     let vw := visit srv_ok "site" false (cutoff C0 fs_marked) sub perm c index v in
     attempted index (new_events v vw.2) ↔ changed) ∧
  (attempted index (new_events (start fs_marked) rw.2) → changed) ∧
  (∀ c, rw.1 = Ok c → (attempted index (new_events (start fs_marked) rw.2) ↔ changed)).
Proof.
  assert (index ∈ candidates glob0 fs_marked "output") as H1
    by (apply list_elem_of_In; vm_compute; tauto).
  split; [exact H1|].
  exact (C5_attempted_iff_changed C0 glob0 srv_ok iso0 1000 "output" "site"
           false (start fs_marked) index H1).
Defined.

(** C6 (the code departs from the claim).  The claim: with no marker every
    candidate qualifies, also with [force_update] off.  The comment on line
    71 says as much (the time is set "to force all files to update"), but
    the time chosen is 0, the epoch, not the earliest time a file can
    carry, and the test of line 81 is strict: below, a matching file whose
    modification time is the epoch does not qualify, and the run returns
    normally without attempting it. *)
Lemma C6_file_at_the_epoch_is_skipped :
  let rw := check_and_upload_files C0 glob0 srv_ok iso0 1000
              "output" "site" false (start fs_epoch) in
  fs_epoch !! LAST_UPDATE_FILENAME C0 = None ∧
  index ∈ candidates glob0 fs_epoch "output" ∧
  read_last_update C0 (start fs_epoch) = (Ok 0, start fs_epoch) ∧
  qualifies false 0 fs_epoch index = false ∧
  rw.1 = Ok 0%nat ∧
  ¬ attempted index (new_events (start fs_epoch) rw.2).
Proof.
  split_and!.
  - by vm_compute.
  - apply list_elem_of_In. vm_compute. tauto.
  - by vm_compute.
  - by vm_compute.
  - by vm_compute.
  - intros [ok H]. apply list_elem_of_In in H. vm_compute in H.
    destruct H as [H|[H|[]]]; discriminate.
Qed.


Lemma same_but_sendcmd_no_chmod : same_but_sendcmd srv_ok srv_no_chmod.
Proof. by intros h []. Qed.


(** C8.  Whenever [upload_file] returns to its caller, whatever happened
    to the transfer, the last thing it did was a successful change to
    [os.path.join("/", remote_base)], and that is the session's working
    directory; for a [remote_base] that does not itself begin with ["/"]
    this is ["/" + remote_base]. *)
Theorem C8_back_in_base_directory (server : list ftp_call → ftp_call → reply)
    (local filename rb sub : string) (perm : Z) (w : world) :
  let rw := upload_file server local filename rb sub perm w in
  rw.1 = Ok () →
  wd rw.2 = Some (posixpath.join "/" [rb]) ∧
  (∃ t, last (events rw.2) =
        Some (EvFtp (Cwd (posixpath.join "/" [rb])) (Resp t))) ∧
  (posixpath.startswith rb "/" = false → wd rw.2 = Some ("/" +:+ rb)).
Proof.
  intros rw Hr. subst rw.
  destruct (upload_file_course server local filename rb sub perm w)
    as (evs & logs & back & Hev & _ & Hcourse & _ & _ & _ & Hres & Hwd).
  simpl in *. rewrite Hr in Hres. destruct back as [[t|]|]; [|done..].
  split_and!.
  - done.
  - exists t. rewrite Hev. by destruct Hcourse; rewrite last_app.
  - intros Hrel. by rewrite Hwd, join_root_relative.
Qed.

Lemma C8_back_in_base_directory_witness :
  let rw := upload_file srv_read_only index "index.html" "site" "" 664
              (start fs_pages) in
  rw.1 = Ok () ∧
  wd rw.2 = Some (posixpath.join "/" ["site"]) ∧
  (∃ t, last (events rw.2) =
        Some (EvFtp (Cwd (posixpath.join "/" ["site"])) (Resp t))) ∧
  (posixpath.startswith "site" "/" = false → wd rw.2 = Some ("/" +:+ "site")).
Proof.
  assert ((upload_file srv_read_only index "index.html" "site" "" 664
             (start fs_pages)).1 = Ok ()) as H1 by (by vm_compute).
  split; [exact H1|].
  exact (C8_back_in_base_directory srv_read_only index "index.html" "site" ""
           664 (start fs_pages) H1).
Defined.


(** Two more exceptions that leave [main] with a source path given.  A
    file name with a line feed: [storbinary] raises [ValueError], which is
    not one of [ftplib.all_errors]; nothing is logged for it, the walk
    ends, QUIT is still sent, and the marker is not touched. *)
Lemma newline_in_file_name_ends_the_run :
  let o := Options "output" "site" false None in
  let rw := main C0 glob_odd srv_ok iso0 1000 o (start fs_odd) in
  rw.1 = Raise (OtherError illegal_newline) ∧
  exit_status rw.1 = 1 ∧
  events rw.2 =
    [EvFtp (Connect "ftp.example.org" "user" "secret") (Resp "230 Login successful.");
     EvOpen odd true;
     EvFtp (Cwd "/site/") (Resp "250 Directory successfully changed.");
     EvFtp (Storbinary ("STOR " +:+ posixpath.basename odd) [Byte.x68; Byte.x69])
           Refused;
     EvFtp Quit (Resp "221 Goodbye.")] ∧
  log rw.2 =
    [(INFO, "Last update date/time=0");
     (DEBUG, "Logged into 'ftp.example.org'");
     (DEBUG, "Changed directory to /site/")] ∧
  fs rw.2 = fs_odd.
Proof. vm_compute. by split_and!. Qed.

(** A marker that cannot be written: both pages are stored, the count is
    logged, and [Path.touch] raises [OSError]. *)
Lemma unwritable_marker_ends_the_run :
  let o := Options "output" "site" false None in
  let rw := main C0 glob0 srv_ok iso0 1000 o start_read_only in
  rw.1 = Raise (permission_denied "lastupdate.txt") ∧
  exit_status rw.1 = 1 ∧
  stored (events rw.2) = 2%nat ∧
  last (log rw.2) = Some (INFO, "Uploaded 2 files.") ∧
  fs rw.2 = fs_pages.
Proof. vm_compute. by split_and!. Qed.



(** Over a whole run: every store command names the basename of a
    candidate that passed the test of line 81 and carries its content. *)
Lemma run_stores_basenames (C : creds)
    (glob : gmap string file → string → list string)
    (server : list ftp_call → ftp_call → reply)
    (isoformat : Z → option string)
    (now : Z) (src rb : string) (force : bool) (w : world)
    (cmd : string) (data : list Byte.byte) (r : reply) :
  let rw := check_and_upload_files C glob server isoformat now src rb force w in
  EvFtp (Storbinary cmd data) r ∈ new_events w rw.2 →
  ∃ path x,
    path ∈ candidates glob (fs w) src ∧
    qualifies force (cutoff C (fs w)) (fs w) path = true ∧
    fs w !! path = Some x ∧
    cmd = "STOR " +:+ posixpath.basename path ∧ data = content x.
Proof.
  intros rw Hin. subst rw.
  destruct (run_new_events C glob server isoformat now src rb force w)
    as (evs & tail & Hev & HP & _ & Hout).
  rewrite Hev in Hin. apply elem_of_app in Hin as [Hin|Hin].
  - rewrite Forall_forall in HP. exact (HP _ Hin).
  - destruct (check_and_upload_files _ _ _ _ _ _ _ _ _).1 as [c|e].
    + destruct Hout as (_ & _ & Hout).
      destruct (0 <? c)%nat; destruct Hout as [-> _]; in_list Hin.
    + destruct Hout as [-> _]. in_list Hin.
Qed.

(** C10.  While the loop visits a path, every store command it sends is
    [STOR] followed by the basename of that path, which has no directory
    part, and carries the content of that file; the directories it changes
    to are built from [remote_base] and the manifest entry's [sub_path]
    alone. *)
Theorem C10_store_names_basename (server : list ftp_call → ftp_call → reply)
    (rb : string) (force : bool) (last : Z) (sub : string) (perm : Z)
    (c : nat) (f : string) (w : world) (cmd : string) (data : list Byte.byte)
    (r : reply) :
  let rw := visit server rb force last sub perm c f w in
  EvFtp (Storbinary cmd data) r ∈ new_events w rw.2 →
  cmd = "STOR " +:+ posixpath.basename f ∧
  posixpath.has_sep (posixpath.basename f) = false ∧
  (∃ x, fs w !! f = Some x ∧ data = content x) ∧
  (∀ d r', EvFtp (Cwd d) r' ∈ new_events w rw.2 →
           d = posixpath.join "/" [rb; sub] ∨ d = posixpath.join "/" [rb]).
Proof.
  intros rw Hin. subst rw.
  destruct (visit_course server rb force last sub perm c f w)
    as [[_ Hnone]|(_ & evs & logs & back & Hcourse & Hev)].
  { rewrite Hnone in Hin. by apply elem_of_nil in Hin. }
  rewrite Hev in *. split_and!.
  - destruct Hcourse; in_list Hin; by simplify_eq.
  - apply basename_no_sep.
  - destruct Hcourse; in_list Hin; simplify_eq; eauto.
  - intros d r' Hd. destruct Hcourse; in_list Hd; simplify_eq; auto.
Qed.

Lemma C10_store_names_basename_witness :
  let rw := visit srv_ok "site" false 0 "" 664 0 index (start fs_pages) in
  EvFtp (Storbinary "STOR index.html" [Byte.x68; Byte.x69])
        (Resp "226 Transfer complete.") ∈ new_events (start fs_pages) rw.2 ∧
  "STOR index.html" = "STOR " +:+ posixpath.basename index ∧
  posixpath.has_sep (posixpath.basename index) = false ∧
  (∃ x, fs (start fs_pages) !! index = Some x ∧ [Byte.x68; Byte.x69] = content x) ∧
  (∀ d r', EvFtp (Cwd d) r' ∈ new_events (start fs_pages) rw.2 →
           d = posixpath.join "/" ["site"; ""] ∨ d = posixpath.join "/" ["site"]).
Proof.
  assert (EvFtp (Storbinary "STOR index.html" [Byte.x68; Byte.x69])
            (Resp "226 Transfer complete.")
          ∈ new_events (start fs_pages)
              (visit srv_ok "site" false 0 "" 664 0 index (start fs_pages)).2) as H1
    by (apply list_elem_of_In; vm_compute; tauto).
  split; [exact H1|].
  exact (C10_store_names_basename srv_ok "site" false 0 "" 664 0%nat index
           (start fs_pages) "STOR index.html" [Byte.x68; Byte.x69]
           (Resp "226 Transfer complete.") H1).
Defined.

(* SPLIT *)
(** * Further properties

    The trace of a run, taken apart call by call, and what follows from
    it. *)

(** ** The trace of a walk *)

Lemma courses_app m rb js1 js2 evs1 evs2 :
  courses m rb js1 evs1 → courses m rb js2 evs2 →
  courses m rb (js1 ++ js2) (evs1 ++ evs2).
Proof.
  induction 1 as [|path sub perm js evs logs t rest Hc _ IH]; intros H2; [done|].
  rewrite <- app_assoc. simpl. econstructor; eauto.
Qed.

Lemma courses_partial m rb js e evs :
  courses m rb js evs → partial_walk m rb js e evs.
Proof.
  intros H. exists js, [], evs, []. rewrite !app_nil_r. split_and!; auto.
Qed.

Lemma partial_walk_app m rb js1 js2 e evs1 evs2 :
  courses m rb js1 evs1 → partial_walk m rb js2 e evs2 →
  partial_walk m rb (js1 ++ js2) e (evs1 ++ evs2).
Proof.
  intros H1 (done & next & evs_done & tail & -> & Hd & -> & Htail).
  exists (js1 ++ done), next, (evs1 ++ evs_done), tail.
  rewrite !app_assoc. split_and!; [done | by apply courses_app | done | done].
Qed.

Lemma partial_walk_more m rb js1 js2 e evs :
  partial_walk m rb js1 e evs → partial_walk m rb (js1 ++ js2) e evs.
Proof.
  intros (done & next & evs_done & tail & -> & Hd & -> & Htail).
  exists done, (next ++ js2), evs_done, tail.
  rewrite app_assoc. split_and!; [done..|].
  destruct Htail as [?|(path & sub & perm & rest & logs & back & -> & ? & ?)];
    [by left | right].
  exists path, sub, perm, (rest ++ js2), logs, back. by split_and!.
Qed.

Section Shape.
Variable glob : gmap string file -> string -> list string.
Variable server : list ftp_call -> ftp_call -> reply.

Lemma visit_shape rb force last sub perm c f w :
  let rw := visit server rb force last sub perm c f w in
  fs rw.2 = fs w ∧
  ∃ evs, events rw.2 = events w ++ evs ∧
    walk_shape (fs w) rb
      (if qualifies force last (fs w) f then [(f, sub, perm)] else [])
      c rw.1 evs.
Proof.
  assert (walk_shape (fs w) rb [] c (Ok c) []) as Hskip.
  { split; [constructor | simpl; lia]. }
  assert (∀ e, walk_shape (fs w) rb [] c (Raise e) []) as Hraise.
  { intros e. exists [], [], [], []. split_and!; auto. constructor. }
  assert (let rw := (upload_file server f (posixpath.basename f) rb sub perm;;
                     mret (S c)) w in
          fs rw.2 = fs w ∧
          ∃ evs, events rw.2 = events w ++ evs ∧
            walk_shape (fs w) rb [(f, sub, perm)] c rw.1 evs) as Hgo.
  { destruct (upload_file_course server f (posixpath.basename f) rb sub perm w)
      as (evs & logs & back & Hev & _ & Hcourse & Hfs & _ & _ & Hres & _).
    revert Hev Hfs Hres. unfold mbind, M_bind, bind, mret, M_ret, ret.
    destruct (upload_file _ _ _ _ _ _ w) as [r w']. simpl.
    intros Hev Hfs ->.
    assert (∀ e, reply_result back = Raise e →
                 walk_shape (fs w) rb [(f, sub, perm)] c (Raise e) evs) as Hfail.
    { intros e He.
      exists [], [(f, sub, perm)], [], evs. split_and!; [done | constructor | done |].
      right. exists f, sub, perm, [], logs, back. by split_and!. }
    destruct back as [[t|cl msg]|]; simpl;
      (split; [done|]); exists evs; (split; [done|]);
      [|by apply Hfail..].
    split; [|lia].
    rewrite <- (app_nil_r evs). econstructor; [exact Hcourse | constructor]. }
  unfold visit, changed_since, qualifies in *.
  destruct force; simpl in *; [exact Hgo|].
  unfold os_path_getmtime, mbind, M_bind, bind, mret, M_ret, ret in *.
  destruct (fs w !! f) as [x|]; simpl.
  - destruct (last <? mtime x); [exact Hgo|].
    split; [done|]. exists []. by rewrite app_nil_r.
  - split; [done|]. exists []. rewrite app_nil_r. split; [done|]. apply Hraise.
Qed.

Lemma for_each_shape {A} (J : A → list job) (m : gmap string file) rb
    (xs : list A) (body : nat → A → M nat) :
  (∀ x c w, x ∈ xs → fs w = m →
     fs (body c x w).2 = m ∧
     ∃ evs, events (body c x w).2 = events w ++ evs ∧
       walk_shape m rb (J x) c (body c x w).1 evs) →
  ∀ c w, fs w = m →
    fs (for_each xs body c w).2 = m ∧
    ∃ evs, events (for_each xs body c w).2 = events w ++ evs ∧
      walk_shape m rb (xs ≫= J) c (for_each xs body c w).1 evs.
Proof.
  induction xs as [|x xs IH]; intros Hbody c w Hw; simpl.
  - split; [done|]. exists []. rewrite app_nil_r. split; [done|].
    split; [constructor | simpl; lia].
  - unfold mbind at 1 2 3, M_bind, bind.
    destruct (Hbody x c w ltac:(left) Hw) as (Hfs1 & evs1 & Hev1 & Hsh1).
    destruct (body c x w) as [[c1|e] w1]; simpl in *.
    + destruct (IH (λ y c w Hy, Hbody y c w ltac:(by right)) c1 w1 Hfs1)
        as (Hfs2 & evs2 & Hev2 & Hsh2).
      split; [done|]. exists (evs1 ++ evs2).
      split; [by rewrite Hev2, Hev1, app_assoc|].
      destruct Hsh1 as [Hc1 ->].
      change ((x :: xs) ≫= J) with (J x ++ (xs ≫= J)).
      destruct (for_each xs body _ w1).1 as [c2|e2]; simpl in *.
      * destruct Hsh2 as [Hc2 ->]. split; [by apply courses_app|].
        rewrite length_app. symmetry. apply Nat.add_assoc.
      * by apply partial_walk_app.
    + split; [done|]. exists evs1. split; [done|].
      change ((x :: xs) ≫= J) with (J x ++ (xs ≫= J)).
      by apply partial_walk_more.
Qed.

Lemma bind_filter_fmap {A B} (q : A → bool) (g : A → B) (xs : list A) :
  xs ≫= (λ x, if q x then [g x] else []) = g <$> List.filter q xs.
Proof.
  induction xs as [|x xs IH]; [done|].
  change ((x :: xs) ≫= ?f) with (f x ++ (xs ≫= f)). rewrite IH. simpl.
  by destruct (q x).
Qed.

Lemma visit_entry_shape src rb force last c entry w :
  let rw := visit_entry glob server src rb force last c entry w in
  fs rw.2 = fs w ∧
  ∃ evs, events rw.2 = events w ++ evs ∧
    walk_shape (fs w) rb (entry_jobs glob (fs w) src force last entry) c rw.1 evs.
Proof.
  destruct entry as [[sub spec] perm]. unfold visit_entry, entry_jobs. simpl.
  rewrite <- (bind_filter_fmap (qualifies force last (fs w))
               (λ path, (path, sub, perm))).
  apply (for_each_shape
           (λ f, if qualifies force last (fs w) f then [(f, sub, perm)] else []));
    [|done].
  intros f c0 v _ Hv. rewrite <- Hv. apply visit_shape.
Qed.

Lemma walk_manifest_shape src rb force last w :
  let rw := walk_manifest glob server src rb force last w in
  fs rw.2 = fs w ∧
  ∃ evs, events rw.2 = events w ++ evs ∧
    walk_shape (fs w) rb (jobs glob (fs w) src force last) 0 rw.1 evs.
Proof.
  unfold walk_manifest, jobs.
  apply (for_each_shape (entry_jobs glob (fs w) src force last)); [|done].
  intros entry c v _ Hv. rewrite <- Hv. apply visit_entry_shape.
Qed.

End Shape.

Lemma partial_walk_nil m rb js e : partial_walk m rb js e [].
Proof. exists [], js, [], []. split_and!; auto. constructor. Qed.

Section RunShape.
Variable C : creds.
Variable glob : gmap string file -> string -> list string.
Variable server : list ftp_call -> ftp_call -> reply.
Variable isoformat : Z -> option string.
Variable now : Z.

Lemma run_shape src rb force w :
  let rw := check_and_upload_files C glob server isoformat now src rb force w in
  let js := jobs glob (fs w) src force (cutoff C (fs w)) in
  ∃ sess inner tail,
    new_events w rw.2 = sess ++ tail ∧ session_shape C sess inner ∧
    match rw.1 with
    | Ok c =>
        (∃ t q, sess = EvFtp (Connect (SERVER C) (USER C) (PSWRD C)) (Resp t) ::
                       inner ++ [EvFtp Quit q]) ∧
        courses (fs w) rb js inner ∧ c = length js ∧
        tail = if (0 <? c)%nat then [EvTouch (LAST_UPDATE_FILENAME C) now] else []
    | Raise e => tail = [] ∧ ∃ e', partial_walk (fs w) rb js e' inner
    end.
Proof.
  intros rw js. subst rw js.
  destruct (check_and_upload_files _ _ _ _ _ _ _ _ w) as [r' w'] eqn:Hrun.
  simpl. revert Hrun. unfold check_and_upload_files.
  unfold mbind at 1, M_bind, bind. rewrite read_last_update_cutoff.
  unfold mbind at 1, M_bind, bind, utc_isoformat.
  destruct (isoformat (cutoff C (fs w))) as [stamp|].
  2:{ intros [= <- <-]. exists [], [], []. split_and!.
      - apply new_events_app. by rewrite app_nil_r.
      - constructor.
      - done.
      - exists (OtherError ""). apply partial_walk_nil. }
  unfold mbind at 1, M_bind, bind, logging at 1.
  set (w1 := set_log _ w).
  unfold mbind at 1, M_bind, bind, with_FTP, ftp at 1.
  rewrite outcome_connect. cbv zeta.
  destruct (server (calls_of (events w1)) (Connect _ _ _)) as [t|cl msg].
  2:{ intros [= <- <-]. eexists [_], [], []. split_and!.
      - by apply new_events_app.
      - constructor.
      - done.
      - exists (OtherError ""). apply partial_walk_nil. }
  unfold logging at 1, mbind at 1, M_bind, bind.
  set (w2 := set_log _ (add_event _ w1)).
  destruct (walk_manifest_shape glob server src rb force (cutoff C (fs w)) w2)
    as (Hfs & evs & Hev & Hshape).
  change (fs w2) with (fs w) in *.
  destruct (walk_manifest _ _ _ _ _ _ w2) as [r w3]. simpl in Hfs, Hev, Hshape.
  unfold ftp. rewrite outcome_quit.
  set (q := server (calls_of (events w3)) Quit).
  set (login := EvFtp (Connect (SERVER C) (USER C) (PSWRD C)) (Resp t)) in *.
  assert (events (add_event (EvFtp Quit q) w3) =
          events w ++ login :: evs ++ [EvFtp Quit q]) as Hall.
  { simpl. rewrite Hev. simpl. by rewrite <- !app_assoc. }
  assert (∃ e', partial_walk (fs w) rb
                  (jobs glob (fs w) src force (cutoff C (fs w))) e' evs) as Hpart.
  { destruct r as [c|e]; [|by exists e].
    exists (OtherError ""). apply courses_partial. by destruct Hshape. }
  assert (∀ e, (Raise e, add_event (EvFtp Quit q) w3) = (r', w') →
            ∃ sess inner tail,
              new_events w w' = sess ++ tail ∧ session_shape C sess inner ∧
              match r' with
              | Ok c =>
                  (∃ t q, sess = EvFtp (Connect (SERVER C) (USER C) (PSWRD C)) (Resp t) ::
                                 inner ++ [EvFtp Quit q]) ∧
                  courses (fs w) rb (jobs glob (fs w) src force (cutoff C (fs w))) inner ∧
                  c = length (jobs glob (fs w) src force (cutoff C (fs w))) ∧
                  tail = if (0 <? c)%nat then [EvTouch (LAST_UPDATE_FILENAME C) now]
                         else []
              | Raise _ =>
                  tail = [] ∧
                  ∃ e', partial_walk (fs w) rb
                          (jobs glob (fs w) src force (cutoff C (fs w))) e' inner
              end) as Hraise.
  { intros e [= <- <-]. exists (login :: evs ++ [EvFtp Quit q]), evs, [].
    rewrite app_nil_r. split_and!; [by apply new_events_app | constructor | done..]. }
  assert (∀ c, r = Ok c →
            (logging INFO ("Uploaded " +:+ pretty c +:+ " files.");;
             (if (0 <? c)%nat then touch now (LAST_UPDATE_FILENAME C)
              else mret ());; mret c) (add_event (EvFtp Quit q) w3) = (r', w') →
            ∃ sess inner tail,
              new_events w w' = sess ++ tail ∧ session_shape C sess inner ∧
              match r' with
              | Ok c =>
                  (∃ t q, sess = EvFtp (Connect (SERVER C) (USER C) (PSWRD C)) (Resp t) ::
                                 inner ++ [EvFtp Quit q]) ∧
                  courses (fs w) rb (jobs glob (fs w) src force (cutoff C (fs w))) inner ∧
                  c = length (jobs glob (fs w) src force (cutoff C (fs w))) ∧
                  tail = if (0 <? c)%nat then [EvTouch (LAST_UPDATE_FILENAME C) now]
                         else []
              | Raise _ =>
                  tail = [] ∧
                  ∃ e', partial_walk (fs w) rb
                          (jobs glob (fs w) src force (cutoff C (fs w))) e' inner
              end) as Hok.
  { intros c ->. destruct Hshape as [Hcourses Hc]. simpl in Hc.
    unfold logging, touch, mbind, M_bind, bind, mret, M_ret, ret.
    destruct (0 <? c)%nat eqn:Hpos; [case_bool_decide|]; intros [= <- <-].
    - exists (login :: evs ++ [EvFtp Quit q]), evs, [].
      rewrite app_nil_r.
      split_and!; [by apply new_events_app | constructor | done |].
      exists (OtherError ""). by apply courses_partial.
    - exists (login :: evs ++ [EvFtp Quit q]), evs,
        [EvTouch (LAST_UPDATE_FILENAME C) now].
      rewrite Hpos. split_and!; [|constructor | by eexists _, _ | done..].
      apply new_events_app. simpl in *. rewrite Hall. by rewrite <- app_assoc.
    - exists (login :: evs ++ [EvFtp Quit q]), evs, [].
      rewrite Hpos. split_and!; [|constructor | by eexists _, _ | done..].
      apply new_events_app. simpl in *. rewrite Hall. by rewrite app_nil_r. }
  destruct q as [tq|[] msg]; simpl.
  1,3,4: destruct r as [c|e]; [by apply Hok | by apply Hraise].
  by apply Hraise.
Qed.

End RunShape.

(** ** Reading courses *)

Lemma opened_app (a b : list event) : opened (a ++ b) = opened a ++ opened b.
Proof. apply omap_app. Qed.

Lemma chmods_app (a b : list event) : chmods (a ++ b) = (chmods a + chmods b)%nat.
Proof. unfold chmods. by rewrite List.filter_app, length_app. Qed.

Lemma upload_course_reading m p filename rb sub perm evs logs back :
  upload_course m p filename rb sub perm evs logs back →
  opened evs = [p] ∧ chmods evs = stored evs ∧
  Forall (λ e, is_upload_event e = true) evs.
Proof.
  destruct 1 as [| | | | |? ? ? ? ? Hres|? ? ? ? ? ? Hres];
    unfold chmods, stored; simpl;
    rewrite ?Hres; split_and!; try done; by repeat constructor.
Qed.

Lemma upload_course_events m p rb sub perm evs logs back :
  upload_course m p (posixpath.basename p) rb sub perm evs logs back →
  Forall (course_event m rb (p, sub, perm)) evs.
Proof.
  destruct 1; repeat apply Forall_cons_2; try apply Forall_nil_2; simpl; eauto.
Qed.

Lemma courses_reading m rb js evs :
  courses m rb js evs →
  opened evs = job_path <$> js ∧ chmods evs = stored evs ∧
  Forall (λ e, is_upload_event e = true) evs ∧
  Forall (λ e, ∃ j, j ∈ js ∧ course_event m rb j e) evs.
Proof.
  induction 1 as [|p sub perm js evs logs t rest Hc _ (IH1 & IH2 & IH3 & IH4)].
  { by split_and!. }
  destruct (upload_course_reading _ _ _ _ _ _ _ _ _ Hc) as (H1 & H2 & H3).
  rewrite opened_app, chmods_app, stored_app, H1, H2, IH1, IH2.
  split_and!; [done | done | by apply Forall_app |].
  apply Forall_app. split.
  - eapply Forall_impl; [exact (upload_course_events _ _ _ _ _ _ _ _ Hc)|].
    intros e He. exists (p, sub, perm). split; [by left | done].
  - eapply Forall_impl; [exact IH4|].
    intros e (j & Hj & He). exists j. split; [by right | done].
Qed.

Lemma partial_walk_reading m rb js e evs :
  partial_walk m rb js e evs →
  opened evs `prefix_of` job_path <$> js ∧ chmods evs = stored evs ∧
  Forall (λ e, is_upload_event e = true) evs ∧
  Forall (λ e, ∃ j, j ∈ js ∧ course_event m rb j e) evs.
Proof.
  intros (done & next & evs_done & tail & -> & Hd & -> & Htail).
  destruct (courses_reading _ _ _ _ Hd) as (H1 & H2 & H3 & H4).
  assert (Forall (λ e, ∃ j, j ∈ done ++ next ∧ course_event m rb j e) evs_done)
    as H4'.
  { eapply Forall_impl; [exact H4|]. intros ev (j & Hj & He). exists j.
    split; [|done]. apply elem_of_app. by left. }
  destruct Htail as [->|(p & sub & perm & rest & logs & back & -> & _ & Hc)].
  - rewrite app_nil_r, fmap_app, H1. split_and!; try done.
    by apply prefix_app_r.
  - destruct (upload_course_reading _ _ _ _ _ _ _ _ _ Hc) as (G1 & G2 & G3).
    rewrite opened_app, chmods_app, stored_app, fmap_app, H1, H2, G1, G2.
    split_and!; [|done | by apply Forall_app |].
    + apply prefix_app. by exists (job_path <$> rest).
    + apply Forall_app. split; [done|].
      eapply Forall_impl; [exact (upload_course_events _ _ _ _ _ _ _ _ Hc)|].
      intros ev He. exists (p, sub, perm). split; [|done].
      apply elem_of_app. right. by left.
Qed.

Lemma filter_bind {A B} (q : B → bool) (f : A → list B) (xs : list A) :
  List.filter q (xs ≫= f) = xs ≫= (λ x, List.filter q (f x)).
Proof.
  induction xs as [|x xs IH]; [done|].
  change ((x :: xs) ≫= ?g) with (g x ++ (xs ≫= g)).
  by rewrite List.filter_app, IH.
Qed.

Lemma fmap_bind {A B D} (g : B → D) (f : A → list B) (xs : list A) :
  g <$> (xs ≫= f) = xs ≫= (λ x, g <$> f x).
Proof.
  induction xs as [|x xs IH]; [done|].
  change ((x :: xs) ≫= ?h) with (h x ++ (xs ≫= h)).
  by rewrite fmap_app, IH.
Qed.

(** The paths of the jobs are the candidates that pass the test of line
    81, in order. *)
Lemma jobs_paths glob m src force last :
  job_path <$> jobs glob m src force last =
  List.filter (qualifies force last m) (candidates glob m src).
Proof.
  unfold jobs, candidates. rewrite fmap_bind, filter_bind.
  induction SUB_PATHS as [|entry es IH]; [done|].
  change ((entry :: es) ≫= ?h) with (h entry ++ (es ≫= h)). rewrite IH.
  f_equal. unfold entry_jobs. rewrite <- list_fmap_compose.
  apply list_fmap_id.
Qed.

Lemma elem_of_jobs glob m src force last (j : job) :
  j ∈ jobs glob m src force last →
  ∃ sub spec perm path,
    (sub, spec, perm) ∈ SUB_PATHS ∧
    path ∈ glob m (posixpath.join src [sub; spec]) ∧
    qualifies force last m path = true ∧ j = (path, sub, perm).
Proof.
  intros ([[sub spec] perm] & Hj & Hentry)%list_elem_of_bind.
  apply list_elem_of_fmap in Hj as (path & -> & Hpath).
  apply list_elem_of_In, List.filter_In in Hpath as [Hpath Hq].
  exists sub, spec, perm, path. split_and!; [done | | done | done].
  by apply list_elem_of_In.
Qed.

(** ** Paths *)

Lemma prefix_nil_l (s : string) : String.prefix "" s = true.
Proof. by destruct s. Qed.

Lemma no_sep_relative (name : string) :
  posixpath.has_sep name = false → posixpath.startswith name "/" = false.
Proof.
  unfold posixpath.startswith. destruct name as [|c r]; [done|].
  intros H. simpl in H. apply orb_false_iff in H as [Hc _].
  apply Ascii.eqb_neq in Hc.
  change (String.prefix "/" (String c r))
    with (if ascii_dec "/" c then String.prefix "" r else false).
  destruct (ascii_dec "/" c); [congruence | done].
Qed.

Lemma after_last_sep_no_sep_id (name acc : string) :
  posixpath.has_sep name = false → posixpath.after_last_sep acc name = acc.
Proof.
  revert acc. induction name as [|c r IH]; intros acc; simpl; [done|].
  intros H. apply orb_false_iff in H as [Hc Hr]. rewrite Hc. by apply IH.
Qed.

Lemma after_last_sep_app (p name acc : string) :
  posixpath.endswith_sep p = true → posixpath.has_sep name = false →
  posixpath.after_last_sep acc (p +:+ name) = name.
Proof.
  intros Hp Hname. revert acc Hp. induction p as [|c r IH]; intros acc; [done|].
  rewrite append_cons. simpl. destruct r as [|c' r'].
  - intros ->. rewrite append_nil_l. by apply after_last_sep_no_sep_id.
  - intros Hr. destruct (Ascii.eqb c "/"); by apply IH.
Qed.

Lemma basename_app (p name : string) :
  posixpath.endswith_sep p = true → posixpath.has_sep name = false →
  posixpath.basename (p +:+ name) = name.
Proof. intros. by apply after_last_sep_app. Qed.

Lemma endswith_sep_snoc (p : string) : posixpath.endswith_sep (p +:+ "/") = true.
Proof. by apply endswith_sep_app. Qed.

(** X1.  The name a file is stored under: for a file name without a
    slash, the basename of [os.path.join(source_path, sub_path, name)], the
    shape of the paths line 79 globs for, is that name, whatever the two
    directories are. *)
Theorem X1_basename_of_joined_name (source_path sub_path name : string) :
  posixpath.has_sep name = false →
  posixpath.basename (posixpath.join source_path [sub_path; name]) = name.
Proof.
  intros Hname. unfold posixpath.join. simpl.
  set (dir := posixpath.join_step source_path sub_path).
  unfold posixpath.join_step at 1. rewrite (no_sep_relative _ Hname).
  destruct (String.eqb dir "") eqn:Hdir; simpl.
  - apply String.eqb_eq in Hdir as ->. rewrite append_nil_l.
    by apply after_last_sep_no_sep_id.
  - destruct (posixpath.endswith_sep dir) eqn:Hend.
    + by apply basename_app.
    + rewrite <- append_assoc. apply basename_app; [|done].
      apply endswith_sep_snoc.
Qed.

Lemma startswith_app (p x : string) :
  posixpath.startswith p "/" = true → posixpath.startswith (p +:+ x) "/" = true.
Proof.
  unfold posixpath.startswith. destruct p as [|c r]; [done|].
  rewrite append_cons.
  change (String.prefix "/" (String c ?s))
    with (if ascii_dec "/" c then String.prefix "" s else false).
  destruct (ascii_dec "/" c); [|done]. intros _. apply prefix_nil_l.
Qed.

Lemma join_root_absolute2 (rb sub : string) :
  posixpath.startswith (posixpath.join "/" [rb; sub]) "/" = true.
Proof.
  change (posixpath.join "/" [rb; sub])
    with (posixpath.join_step (posixpath.join "/" [rb]) sub).
  pose proof (join_root_absolute rb) as Hrb.
  unfold posixpath.join_step at 1.
  destruct (posixpath.startswith sub "/") eqn:Hsub; [done|].
  destruct (_ || _); by apply startswith_app.
Qed.

(** X2.  The remote directory of line 47 for a base and a sub path that do
    not start with a slash: a slash, the base, and the sub path after one
    more slash, which is left out when the base is empty or ends with a
    slash already. *)
Theorem X2_remote_path_of_relative_parts (remote_base sub_path : string) :
  posixpath.startswith remote_base "/" = false →
  posixpath.startswith sub_path "/" = false →
  posixpath.join "/" [remote_base; sub_path] =
    if String.eqb remote_base "" || posixpath.endswith_sep remote_base
    then "/" +:+ remote_base +:+ sub_path
    else "/" +:+ remote_base +:+ "/" +:+ sub_path.
Proof.
  intros Hrb Hsub.
  change (posixpath.join "/" [remote_base; sub_path])
    with (posixpath.join_step (posixpath.join "/" [remote_base]) sub_path).
  rewrite (join_root_relative _ Hrb). unfold posixpath.join_step. rewrite Hsub.
  change ("/" +:+ remote_base) with (String "/" remote_base).
  destruct remote_base as [|c r]; [done|].
  change (String.eqb (String "/" (String c r)) "") with false.
  change (String.eqb (String c r) "") with false.
  change (posixpath.endswith_sep (String "/" (String c r)))
    with (posixpath.endswith_sep (String c r)).
  simpl orb. by destruct (posixpath.endswith_sep (String c r)).
Qed.

(** ** One call of [upload_file], and the run *)

Section Extras.
Variable C : creds.
Variable glob : gmap string file -> string -> list string.
Variable server : list ftp_call -> ftp_call -> reply.
Variable isoformat : Z -> option string.
Variable now : Z.

(** X3.  A call of [upload_file] sends STOR only after it opened the local
    file and the change to the remote directory of the entry succeeded:
    these are the first three events of any call that sends it. *)
Theorem X3_store_only_after_cwd (local filename rb sub : string) (perm : Z)
    (w : world) (cmd : string) (data : list Byte.byte) (r : reply) :
  let rw := upload_file server local filename rb sub perm w in
  EvFtp (Storbinary cmd data) r ∈ new_events w rw.2 →
  ∃ a rest,
    new_events w rw.2 =
      EvOpen local true ::
      EvFtp (Cwd (posixpath.join "/" [rb; sub])) (Resp a) ::
      EvFtp (Storbinary cmd data) r :: rest.
Proof.
  intros rw Hin. subst rw.
  destruct (upload_file_course server local filename rb sub perm w)
    as (evs & logs & back & Hev & _ & Hcourse & _).
  simpl in *. rewrite (new_events_app _ _ _ Hev) in *.
  destruct Hcourse; in_list Hin; simplify_eq; by eexists _, _.
Qed.




Lemma attempts_opened (evs : list event) : attempts evs = length (opened evs).
Proof.
  unfold attempts, opened. induction evs as [|[] evs IH]; simpl; auto.
Qed.

Lemma session_reading sess inner :
  session_shape C sess inner →
  opened sess = opened inner ∧ chmods sess = chmods inner ∧
  stored sess = stored inner.
Proof.
  destruct 1 as [| |t inner q]; [done | done |].
  change (?e :: inner ++ ?l) with ([e] ++ inner ++ l).
  rewrite !opened_app, !chmods_app, !stored_app. simpl.
  rewrite app_nil_r. unfold chmods, stored. simpl. split_and!; [done | lia..].
Qed.

(** What the events of a run add up to: the calls of [upload_file] are a
    prefix of the jobs, all of them when the run returns, and every SITE
    CHMOD follows an acknowledged store. *)
Lemma run_reading src rb force w :
  let rw := check_and_upload_files C glob server isoformat now src rb force w in
  let todo := List.filter (qualifies force (cutoff C (fs w)) (fs w))
                          (candidates glob (fs w) src) in
  opened (new_events w rw.2) `prefix_of` todo ∧
  chmods (new_events w rw.2) = stored (new_events w rw.2) ∧
  (∀ c, rw.1 = Ok c → opened (new_events w rw.2) = todo ∧ c = length todo).
Proof.
  intros rw todo. subst rw todo. rewrite <- jobs_paths.
  destruct (run_shape C glob server isoformat now src rb force w)
    as (sess & inner & tail & -> & Hsess & Hout).
  destruct (session_reading _ _ Hsess) as (Ho & Hc & Hs).
  assert (opened tail = [] ∧ chmods tail = 0%nat ∧ stored tail = 0%nat)
    as (Ho' & Hc' & Hs').
  { destruct (check_and_upload_files _ _ _ _ _ _ _ _ _).1 as [c|e].
    - destruct Hout as (_ & _ & _ & ->). by destruct (0 <? c)%nat.
    - by destruct Hout as [-> _]. }
  rewrite opened_app, chmods_app, stored_app, Ho, Hc, Hs, Ho', Hc', Hs'.
  rewrite app_nil_r, !Nat.add_0_r.
  destruct (check_and_upload_files _ _ _ _ _ _ _ _ _).1 as [c|e].
  - destruct Hout as (_ & Hcourses & -> & _).
    destruct (courses_reading _ _ _ _ Hcourses) as (H1 & H2 & _).
    rewrite H1. split_and!; [done | done |].
    intros c' [= <-]. by rewrite length_fmap.
  - destruct Hout as (_ & e' & Hpart).
    destruct (partial_walk_reading _ _ _ _ _ Hpart) as (H1 & H2 & _).
    by split_and!.
Qed.

(** Where each event of a run comes from. *)
Lemma run_event_cases src rb force w (e : event) :
  let rw := check_and_upload_files C glob server isoformat now src rb force w in
  e ∈ new_events w rw.2 →
  (∃ r, e = EvFtp (Connect (SERVER C) (USER C) (PSWRD C)) r) ∨
  (∃ q, e = EvFtp Quit q) ∨
  e = EvTouch (LAST_UPDATE_FILENAME C) now ∨
  ∃ j, j ∈ jobs glob (fs w) src force (cutoff C (fs w)) ∧
       course_event (fs w) rb j e.
Proof.
  intros rw. subst rw.
  destruct (run_shape C glob server isoformat now src rb force w)
    as (sess & inner & tail & -> & Hsess & Hout).
  assert (Forall (λ e, ∃ j, j ∈ jobs glob (fs w) src force (cutoff C (fs w)) ∧
                            course_event (fs w) rb j e) inner) as Hinner.
  { destruct (check_and_upload_files _ _ _ _ _ _ _ _ _).1 as [c|e0].
    - destruct Hout as (_ & Hcourses & _).
      by apply courses_reading in Hcourses as (_ & _ & _ & ?).
    - destruct Hout as (_ & e' & Hpart).
      by apply partial_walk_reading in Hpart as (_ & _ & _ & ?). }
  assert (tail = [] ∨ tail = [EvTouch (LAST_UPDATE_FILENAME C) now]) as Htail.
  { destruct (check_and_upload_files _ _ _ _ _ _ _ _ _).1 as [c|e0].
    - destruct Hout as (_ & _ & _ & ->). destruct (0 <? c)%nat; auto.
    - destruct Hout as [-> _]. auto. }
  rewrite Forall_forall in Hinner.
  intros [Hin|Hin]%elem_of_app.
  - destruct Hsess as [| |t inner q].
    + by apply elem_of_nil in Hin.
    + apply list_elem_of_singleton in Hin. left. eauto.
    + apply elem_of_cons in Hin as [->|Hin]; [left; eauto|].
      apply elem_of_app in Hin as [Hin|Hin]; [by do 3 right; apply Hinner|].
      apply list_elem_of_singleton in Hin. right. left. eauto.
  - destruct Htail as [->| ->]; [by apply elem_of_nil in Hin|].
    apply list_elem_of_singleton in Hin. auto.
Qed.

(** X7.  A run changes no local file but the marker, and of the marker
    only the modification time: the content it had is kept. *)
Theorem X7_only_the_marker_changes (src rb : string) (force : bool) (w : world) :
  let rw := check_and_upload_files C glob server isoformat now src rb force w in
  (∀ p, p ≠ LAST_UPDATE_FILENAME C → fs rw.2 !! p = fs w !! p) ∧
  (∀ x, fs w !! LAST_UPDATE_FILENAME C = Some x →
        ∃ t, fs rw.2 !! LAST_UPDATE_FILENAME C = Some (File t (content x))).
Proof.
  intros rw. subst rw.
  rewrite (marker_follows_count C glob server isoformat now src rb force w).
  destruct (check_and_upload_files _ _ _ _ _ _ _ _ _).1 as [[|n]|e].
  1,3: split; [done|]; intros [t d] ->; by exists t.
  unfold touched. split.
  - intros p Hp. by rewrite lookup_insert_ne.
  - intros x Hx. rewrite lookup_insert_eq, Hx. by exists now.
Qed.

(** X8.  A run that ends with an exception leaves every local file, the
    marker included, as it was: nothing is touched. *)
Theorem X8_aborted_run_leaves_local_files (src rb : string) (force : bool)
    (w : world) (e : exn) :
  let rw := check_and_upload_files C glob server isoformat now src rb force w in
  rw.1 = Raise e →
  fs rw.2 = fs w ∧ Forall (λ ev, is_touch ev = false) (new_events w rw.2).
Proof.
  intros rw Hr. subst rw.
  destruct (run_new_events C glob server isoformat now src rb force w)
    as (evs & tail & Hev & HP & _ & Hout).
  rewrite Hr in Hout. destruct Hout as [-> Hfs]. split; [done|].
  rewrite Hev, app_nil_r. eapply Forall_impl; [exact HP|].
  intros ev. apply walk_event_not_touch.
Qed.

Lemma filter_none {A} (f : A → bool) (l : list A) :
  (∀ x, x ∈ l → f x = false) → List.filter f l = [].
Proof.
  induction l as [|x l IH]; [done|]. intros Hf. cbn [List.filter].
  rewrite (Hf x) by (by left). apply IH. intros y Hy. apply Hf. by right.
Qed.

(** A run in which no candidate passes the test of line 81. *)
Lemma idle_run src rb w :
  let rw := check_and_upload_files C glob server isoformat now src rb false w in
  (∀ p, p ∈ candidates glob (fs w) src →
        qualifies false (cutoff C (fs w)) (fs w) p = false) →
  opened (new_events w rw.2) = [] ∧ stored (new_events w rw.2) = 0%nat ∧
  fs rw.2 = fs w ∧ ∀ c, rw.1 = Ok c → c = 0%nat.
Proof.
  intros rw Hidle. subst rw.
  destruct (run_reading src rb false w) as (Hpre & _ & Hok).
  assert (List.filter (qualifies false (cutoff C (fs w)) (fs w))
            (candidates glob (fs w) src) = []) as Hnone.
  { by apply filter_none. }
  rewrite Hnone in *. apply prefix_nil_inv in Hpre.
  destruct (run_new_events C glob server isoformat now src rb false w)
    as (evs & tail & Hev & _ & Hle & Hout).
  assert (∀ c, (check_and_upload_files C glob server isoformat now src rb false w).1
               = Ok c → c = 0%nat) as Hzero.
  { intros c Hc. by destruct (Hok c Hc) as [_ ->]. }
  split_and!; [done | | | done].
  - pose proof (attempts_opened (new_events w
       (check_and_upload_files C glob server isoformat now src rb false w).2)) as Ha.
    rewrite Hpre in Ha. simpl in Ha.
    assert (stored tail = 0%nat ∧ attempts tail = 0%nat) as [Hs Hat].
    { destruct (check_and_upload_files _ _ _ _ _ _ _ _ _).1 as [c|e].
      - destruct Hout as (_ & _ & Hout).
        destruct (0 <? c)%nat; by destruct Hout as [-> _].
      - by destruct Hout as [-> _]. }
    rewrite Hev, attempts_app, Hat in Ha. rewrite Hev, stored_app, Hs. lia.
  - rewrite (marker_follows_count C glob server isoformat now src rb false w).
    destruct (check_and_upload_files _ _ _ _ _ _ _ _ _).1 as [[|n]|e]; try done.
    by specialize (Hzero _ eq_refl).
Qed.


(** X9.  When the marker exists and no candidate is newer than it, a run
    without [force_update] calls [upload_file] on no file and stores none,
    leaves the local files alone, and counts 0 if it returns. *)
Theorem X9_up_to_date_site_uploads_nothing (src rb : string) (w : world)
    (marker : file) :
  let rw := check_and_upload_files C glob server isoformat now src rb false w in
  fs w !! LAST_UPDATE_FILENAME C = Some marker →
  (∀ p x, p ∈ candidates glob (fs w) src → fs w !! p = Some x →
          mtime x ≤ mtime marker) →
  opened (new_events w rw.2) = [] ∧ stored (new_events w rw.2) = 0%nat ∧
  fs rw.2 = fs w ∧ ∀ c, rw.1 = Ok c → c = 0%nat.
Proof.
  intros rw Hm Hold. apply idle_run. intros p Hp.
  unfold qualifies, cutoff. rewrite Hm. simpl.
  destruct (fs w !! p) as [x|] eqn:Hx; [|done].
  apply Z.ltb_ge. by apply (Hold p).
Qed.

(** X10.  A run that returns has called [upload_file] exactly on the
    candidates that pass the test of line 81, once each, in the order of
    the manifest and of [glob] within an entry; the count is their
    number. *)
Theorem X10_returning_run_uploads_in_manifest_order (src rb : string)
    (force : bool) (w : world) (c : nat) :
  let rw := check_and_upload_files C glob server isoformat now src rb force w in
  let todo := List.filter (qualifies force (cutoff C (fs w)) (fs w))
                          (candidates glob (fs w) src) in
  rw.1 = Ok c →
  opened (new_events w rw.2) = todo ∧ c = length todo.
Proof.
  intros rw todo Hr. by apply (run_reading src rb force w).
Qed.

(** X11.  However a run ends, the files it called [upload_file] on are
    an initial part of that list: none is skipped, repeated or taken out of
    order before the run stops. *)
Theorem X11_any_run_uploads_a_prefix (src rb : string) (force : bool)
    (w : world) :
  let rw := check_and_upload_files C glob server isoformat now src rb force w in
  opened (new_events w rw.2) `prefix_of`
    List.filter (qualifies force (cutoff C (fs w)) (fs w))
                (candidates glob (fs w) src).
Proof.
  intros rw. by apply (run_reading src rb force w).
Qed.

(** X12.  Every SITE CHMOD a run sends sets the permissions of a manifest
    entry, 644 or 664, on the basename of a path [glob] gave for that
    entry. *)
Theorem X12_chmod_uses_manifest_permissions (src rb : string) (force : bool)
    (w : world) (cmd : string) (r : reply) :
  let rw := check_and_upload_files C glob server isoformat now src rb force w in
  EvFtp (Sendcmd cmd) r ∈ new_events w rw.2 →
  ∃ sub spec perm path,
    (sub, spec, perm) ∈ SUB_PATHS ∧
    path ∈ glob (fs w) (posixpath.join src [sub; spec]) ∧
    cmd = "SITE CHMOD " +:+ pretty perm +:+ " " +:+ posixpath.basename path ∧
    (perm = 644 ∨ perm = 664).
Proof.
  intros rw Hin.
  apply run_event_cases in Hin
    as [[? [=]]|[[? [=]]|[[=]|(j & Hj & He)]]].
  apply elem_of_jobs in Hj as (sub & spec & perm & path & Hentry & Hpath & _ & ->).
  exists sub, spec, perm, path. split_and!; [done | done | exact He |].
  unfold SUB_PATHS in Hentry.
  repeat (apply elem_of_cons in Hentry as [[= -> -> ->]|Hentry]; [by auto|]).
  by apply elem_of_nil in Hentry.
Qed.

(** X13.  In any run the SITE CHMOD commands sent are as many as the
    transfers the server acknowledged with 226. *)
Theorem X13_one_chmod_per_stored_file (src rb : string) (force : bool)
    (w : world) :
  let rw := check_and_upload_files C glob server isoformat now src rb force w in
  chmods (new_events w rw.2) = stored (new_events w rw.2).
Proof.
  intros rw. by apply (run_reading src rb force w).
Qed.

(** X14.  Once the login has succeeded the session is closed: QUIT is sent
    after the events of the walk, also when the walk was cut short by an
    exception, and nothing follows it but the touch of the marker. *)
Theorem X14_session_is_closed (src rb : string) (force : bool) (w : world)
    (t : string) :
  let rw := check_and_upload_files C glob server isoformat now src rb force w in
  let login := EvFtp (Connect (SERVER C) (USER C) (PSWRD C)) (Resp t) in
  head (new_events w rw.2) = Some login →
  ∃ inner q tail,
    new_events w rw.2 = login :: inner ++ EvFtp Quit q :: tail ∧
    Forall (λ e, is_upload_event e = true) inner ∧
    (tail = [] ∨ tail = [EvTouch (LAST_UPDATE_FILENAME C) now]).
Proof.
  intros rw login. subst rw login.
  destruct (run_shape C glob server isoformat now src rb force w)
    as (sess & inner & tail & -> & Hsess & Hout).
  assert (Forall (λ e, is_upload_event e = true) inner) as Hinner.
  { destruct (check_and_upload_files _ _ _ _ _ _ _ _ _).1 as [c|e0].
    - destruct Hout as (_ & Hcourses & _).
      by apply courses_reading in Hcourses as (_ & _ & ? & _).
    - destruct Hout as (_ & e' & Hpart).
      by apply partial_walk_reading in Hpart as (_ & _ & ? & _). }
  assert ((tail = [] ∨ tail = [EvTouch (LAST_UPDATE_FILENAME C) now]) ∧
          (sess = [] → tail = [])) as [Htail Hnil].
  { destruct (check_and_upload_files _ _ _ _ _ _ _ _ _).1 as [c|e0].
    - destruct Hout as ((t' & q & ->) & _ & _ & ->).
      split; [destruct (0 <? c)%nat; auto | done].
    - destruct Hout as [-> _]. auto. }
  destruct Hsess as [|cl msg|t' inner q]; simpl.
  - by rewrite (Hnil eq_refl).
  - intros [=].
  - intros [= ->]. exists inner, q, tail. by rewrite <- app_assoc.
Qed.

(** X15.  When the server refuses the login, the run ends with that error;
    the refused login is its only event, not even QUIT is sent, and no
    local file changes. *)
Theorem X15_refused_login_sends_nothing_else (src rb : string) (force : bool)
    (w : world) (stamp : string) (c : err_class) (msg : string) :
  let rw := check_and_upload_files C glob server isoformat now src rb force w in
  let login := Connect (SERVER C) (USER C) (PSWRD C) in
  isoformat (cutoff C (fs w)) = Some stamp →
  server (calls_of (events w)) login = Fail c msg →
  rw.1 = Raise (Exn c msg) ∧
  new_events w rw.2 = [EvFtp login (Fail c msg)] ∧
  fs rw.2 = fs w.
Proof.
  intros rw login Hiso Hlogin. subst rw login.
  assert (check_and_upload_files C glob server isoformat now src rb force w =
          (Raise (Exn c msg),
           add_event (EvFtp (Connect (SERVER C) (USER C) (PSWRD C)) (Fail c msg))
             (set_log (log w ++ [(INFO, "Last update date/time=" +:+ stamp)]) w)))
    as ->.
  { unfold check_and_upload_files.
    unfold mbind at 1, M_bind, bind. rewrite read_last_update_cutoff.
    unfold mbind at 1, M_bind, bind, utc_isoformat. rewrite Hiso.
    unfold mbind at 1, M_bind, bind, logging at 1.
    unfold mbind at 1, M_bind, bind, with_FTP, ftp at 1. simpl.
    by rewrite Hlogin. }
  split_and!; [done | | done].
  unfold new_events. simpl. by rewrite drop_app_length.
Qed.

(** X16.  When the login succeeds and the server answers QUIT with an
    FTP error reply, the run ends with that error, whatever was uploaded,
    and the marker is not touched. *)
Theorem X16_failed_quit_ends_the_run (src rb : string) (force : bool)
    (w : world) (stamp t msg : string) :
  let rw := check_and_upload_files C glob server isoformat now src rb force w in
  isoformat (cutoff C (fs w)) = Some stamp →
  server (calls_of (events w)) (Connect (SERVER C) (USER C) (PSWRD C)) = Resp t →
  (∀ h, server h Quit = Fail FtplibError msg) →
  rw.1 = Raise (Exn FtplibError msg) ∧ fs rw.2 = fs w.
Proof.
  intros rw Hiso Hlogin Hquit. subst rw.
  assert ((check_and_upload_files C glob server isoformat now src rb force w).1
          = Raise (Exn FtplibError msg)) as Hr.
  { unfold check_and_upload_files.
    unfold mbind at 1, M_bind, bind. rewrite read_last_update_cutoff.
    unfold mbind at 1, M_bind, bind, utc_isoformat. rewrite Hiso.
    unfold mbind at 1, M_bind, bind, logging at 1.
    unfold mbind at 1, M_bind, bind, with_FTP, ftp at 1. simpl.
    rewrite Hlogin.
    destruct ((logging DEBUG _ ≫= _) _) as [r w2].
    unfold ftp. by rewrite Hquit. }
  split; [done|].
  by rewrite (marker_follows_count C glob server isoformat now src rb force w), Hr.
Qed.

(** A walk without [force_update] that returns has read the modification
    time of every path it met. *)
Lemma visit_read rb last sub perm c f w :
  tracks (λ _, True) (λ _, is_Some (fs w !! f)) c w
    (visit server rb false last sub perm c f w).
Proof.
  destruct (visit_tracks server rb false last sub perm c f w)
    as (Hfs & Hth & Hro & evs & Hev & _ & Hst & Hc).
  split_and!; [done..|]. exists evs. split_and!; [done | | done |].
  { by apply Forall_forall. }
  intros c' Hr. split; [by apply Hc|]. revert Hr.
  unfold visit, changed_since, os_path_getmtime, mbind, M_bind, bind.
  by destruct (fs w !! f).
Qed.

Lemma walk_manifest_read src rb last w :
  tracks (λ _, True)
    (λ _, ∀ p, p ∈ candidates glob (fs w) src → is_Some (fs w !! p)) 0%nat w
    (walk_manifest glob server src rb false last w).
Proof.
  unfold walk_manifest.
  eapply tracks_weaken;
    [| | apply (for_each_tracks (λ _ _, True)
                  (λ entry m _, ∀ p, p ∈ entry_paths glob m src entry →
                                     is_Some (m !! p)))].
  - done.
  - intros evs H p (entry & Hp & Hentry)%list_elem_of_bind.
    by apply (H entry Hentry).
  - done.
  - intros [[sub spec] perm] c0 w0 _. unfold visit_entry, entry_paths. simpl.
    eapply tracks_weaken;
      [| | apply (for_each_tracks (λ _ _, True)
                    (λ f m (_ : list event), is_Some (m !! f)))].
    + done.
    + intros evs H p Hp. by apply H.
    + done.
    + intros f c1 w1 _. apply visit_read.
Qed.

(** X17.  A run without [force_update] returns only if every path [glob]
    gave exists: a candidate whose modification time cannot be read, a
    dangling link for one, keeps the run from finishing. *)
Theorem X17_unreadable_candidate_aborts_the_run (src rb : string) (w : world)
    (c : nat) :
  let rw := check_and_upload_files C glob server isoformat now src rb false w in
  rw.1 = Ok c →
  ∀ p, p ∈ candidates glob (fs w) src → is_Some (fs w !! p).
Proof.
  intros rw. subst rw. unfold check_and_upload_files.
  unfold mbind at 1, M_bind, bind. rewrite read_last_update_cutoff.
  unfold mbind at 1, M_bind, bind, utc_isoformat.
  destruct (isoformat (cutoff C (fs w))) as [stamp|]; [|done].
  unfold mbind at 1, M_bind, bind, logging at 1.
  set (w1 := set_log _ w).
  unfold mbind at 1, M_bind, bind, with_FTP, ftp at 1.
  rewrite outcome_connect. cbv zeta.
  destruct (server (calls_of (events w1)) (Connect _ _ _)) as [t|cl msg];
    [|done].
  unfold logging at 1, mbind at 1, M_bind, bind.
  set (w2 := set_log _ (add_event _ w1)).
  destruct (walk_manifest_read src rb (cutoff C (fs w)) w2)
    as (_ & _ & _ & evs & _ & _ & _ & Hc).
  destruct (walk_manifest _ _ _ _ _ _ w2) as [[c'|e] w3]; simpl in *.
  - intros _. by apply (Hc c').
  - unfold ftp. rewrite outcome_quit. by destruct (server _ Quit) as [|[] ?].
Qed.

(** X18.  Every directory a run changes to is an absolute path. *)
Theorem X18_every_cwd_is_absolute (src rb : string) (force : bool) (w : world)
    (d : string) (o : outcome) :
  let rw := check_and_upload_files C glob server isoformat now src rb force w in
  EvFtp (Cwd d) o ∈ new_events w rw.2 →
  posixpath.startswith d "/" = true.
Proof.
  intros rw Hin.
  apply run_event_cases in Hin
    as [[? [=]]|[[? [=]]|[[=]|(j & _ & [-> | ->])]]].
  - apply join_root_absolute2.
  - apply join_root_absolute.
Qed.

(** X19.  The level chosen with [--log-level], INFO when the option is
    absent, is the logger's level at the end of [main], however [main]
    ends: nothing after [basicConfig] changes it. *)
Theorem X19_log_level_holds_for_the_run (o : options) (w : world) :
  let rw := main C glob server isoformat now o w in
  threshold rw.2 = default INFO (opt_log_level o).
Proof.
  intros rw. subst rw. unfold main, handle_options.
  assert (∀ l, threshold
     ((('(source_path, remote_base, force_update) ←
           (if String.eqb (opt_source_path o) ""
            then logging ERROR "No source specified - nothing to do!";;
                 raise (SystemExit 1)
            else mret (opt_source_path o, opt_remote_base o, opt_force_update o));
        check_and_upload_files C glob server isoformat now
          source_path remote_base force_update) : M nat) (set_threshold l w)).2 = l)
    as Hrun.
  { intros l.
    unfold mbind, M_bind, bind, mret, M_ret, ret, logging, raise.
    destruct (String.eqb (opt_source_path o) ""); [done|].
    by destruct (run_summary C glob server isoformat now (opt_source_path o)
                   (opt_remote_base o) (opt_force_update o) (set_threshold l w))
      as [-> _]. }
  unfold basicConfig. unfold mbind at 1 2, M_bind, bind.
  destruct (opt_log_level o) as [l|]; simpl.
  - rewrite <- (Hrun l) at 2. done.
  - rewrite <- (Hrun INFO) at 2. done.
Qed.

End Extras.

(** X20.  Running again after a run that uploaded something: when no local
    file had a modification time later than the touch of the marker, the
    next run without [force_update] calls [upload_file] on no file and leaves
    the local files alone, whatever the server, the source path and the
    clock are then. *)
Theorem X20_second_run_is_idle (C : creds)
    (glob glob' : gmap string file → string → list string)
    (server server' : list ftp_call → ftp_call → reply)
    (isoformat isoformat' : Z → option string)
    (now now' : Z) (src rb src' rb' : string) (force : bool) (w : world)
    (c : nat) :
  let rw := check_and_upload_files C glob server isoformat now src rb force w in
  let rw' := check_and_upload_files C glob' server' isoformat' now' src' rb'
               false rw.2 in
  rw.1 = Ok c → (0 < c)%nat →
  (∀ p x, fs w !! p = Some x → mtime x ≤ now) →
  opened (new_events rw.2 rw'.2) = [] ∧ stored (new_events rw.2 rw'.2) = 0%nat ∧
  fs rw'.2 = fs rw.2 ∧ ∀ c', rw'.1 = Ok c' → c' = 0%nat.
Proof.
  intros rw rw' Hr Hpos Hpast. subst rw'. apply idle_run. intros p _.
  assert (fs rw.2 = touched (LAST_UPDATE_FILENAME C) now (fs w)) as ->.
  { subst rw.
    rewrite (marker_follows_count C glob server isoformat now src rb force w), Hr.
    destruct c; [lia | done]. }
  unfold qualifies, cutoff, touched. rewrite lookup_insert_eq. simpl.
  destruct (decide (p = LAST_UPDATE_FILENAME C)) as [->|Hp].
  - rewrite lookup_insert_eq. destruct (fs w !! _); simpl; apply Z.ltb_irrefl.
  - rewrite lookup_insert_ne by done.
    destruct (fs w !! p) as [x|] eqn:Hx; [|done].
    assert (mtime match fs w !! LAST_UPDATE_FILENAME C with
                  | Some old => File now (content old)
                  | None => File now []
                  end = now) as Hnow
      by (by destruct (fs w !! LAST_UPDATE_FILENAME C)).
    rewrite Hnow. apply Z.ltb_ge. by apply (Hpast p).
Qed.

(** ** The properties at work on the site of two pages *)

Lemma X1_basename_of_joined_name_witness :
  posixpath.has_sep "index.html" = false ∧
  posixpath.basename (posixpath.join "output" ["pages"; "index.html"])
    = "index.html".
Proof.
  assert (posixpath.has_sep "index.html" = false) as H1 by reflexivity.
  split; [exact H1|].
  exact (X1_basename_of_joined_name "output" "pages" "index.html" H1).
Defined.

Lemma X2_remote_path_of_relative_parts_witness :
  posixpath.startswith "site" "/" = false ∧
  posixpath.startswith "pages" "/" = false ∧
  posixpath.join "/" ["site"; "pages"] =
    if String.eqb "site" "" || posixpath.endswith_sep "site"
    then "/" +:+ "site" +:+ "pages"
    else "/" +:+ "site" +:+ "/" +:+ "pages".
Proof.
  assert (posixpath.startswith "site" "/" = false) as H1 by reflexivity.
  assert (posixpath.startswith "pages" "/" = false) as H2 by reflexivity.
  split; [exact H1|]. split; [exact H2|].
  exact (X2_remote_path_of_relative_parts "site" "pages" H1 H2).
Defined.

Lemma X3_store_only_after_cwd_witness :
  let rw := upload_file srv_ok index "index.html" "site" "" 664
              (start fs_pages) in
  EvFtp (Storbinary "STOR index.html" [Byte.x68; Byte.x69])
        (Resp "226 Transfer complete.") ∈ new_events (start fs_pages) rw.2 ∧
  ∃ a rest,
    new_events (start fs_pages) rw.2 =
      EvOpen index true ::
      EvFtp (Cwd (posixpath.join "/" ["site"; ""])) (Resp a) ::
      EvFtp (Storbinary "STOR index.html" [Byte.x68; Byte.x69])
            (Resp "226 Transfer complete.") :: rest.
Proof.
  assert (EvFtp (Storbinary "STOR index.html" [Byte.x68; Byte.x69])
            (Resp "226 Transfer complete.")
          ∈ new_events (start fs_pages)
              (upload_file srv_ok index "index.html" "site" "" 664
                 (start fs_pages)).2) as H1
    by (apply list_elem_of_In; vm_compute; tauto).
  split; [exact H1|].
  exact (X3_store_only_after_cwd srv_ok index "index.html" "site" "" 664
           (start fs_pages) "STOR index.html" [Byte.x68; Byte.x69]
           (Resp "226 Transfer complete.") H1).
Defined.


Lemma X8_aborted_run_leaves_local_files_witness :
  let rw := check_and_upload_files C0 glob0 srv_drop iso0 1000
              "output" "site" false (start fs_pages) in
  rw.1 = Raise (Exn OsError "[Errno 32] Broken pipe") ∧
  fs rw.2 = fs (start fs_pages) ∧
  Forall (λ ev, is_touch ev = false) (new_events (start fs_pages) rw.2).
Proof.
  assert ((check_and_upload_files C0 glob0 srv_drop iso0 1000
             "output" "site" false (start fs_pages)).1
          = Raise (Exn OsError "[Errno 32] Broken pipe")) as H1
    by (vm_compute; reflexivity).
  split; [exact H1|].
  exact (X8_aborted_run_leaves_local_files C0 glob0 srv_drop iso0 1000
           "output" "site" false (start fs_pages) _ H1).
Defined.

Lemma X9_up_to_date_site_uploads_nothing_witness :
  let rw := check_and_upload_files C0 glob0 srv_ok iso0 1000
              "output" "site" false (start fs_synced) in
  fs (start fs_synced) !! LAST_UPDATE_FILENAME C0 = Some (File 300 []) ∧
  (∀ p x, p ∈ candidates glob0 (fs (start fs_synced)) "output" →
          fs (start fs_synced) !! p = Some x → mtime x ≤ mtime (File 300 [])) ∧
  opened (new_events (start fs_synced) rw.2) = [] ∧
  stored (new_events (start fs_synced) rw.2) = 0%nat ∧
  fs rw.2 = fs (start fs_synced) ∧ ∀ c, rw.1 = Ok c → c = 0%nat.
Proof.
  assert (fs (start fs_synced) !! LAST_UPDATE_FILENAME C0 = Some (File 300 []))
    as H1 by (vm_compute; reflexivity).
  assert (∀ p x, p ∈ candidates glob0 (fs (start fs_synced)) "output" →
                 fs (start fs_synced) !! p = Some x →
                 mtime x ≤ mtime (File 300 [])) as H2.
  { intros p x Hin. apply list_elem_of_In in Hin. vm_compute in Hin.
    destruct Hin as [<-|[<-|[]]]; vm_compute; intros [= <-]; discriminate. }
  split; [exact H1|]. split; [exact H2|].
  exact (X9_up_to_date_site_uploads_nothing C0 glob0 srv_ok iso0 1000
           "output" "site" (start fs_synced) (File 300 []) H1 H2).
Defined.

Lemma X10_returning_run_uploads_in_manifest_order_witness :
  let rw := check_and_upload_files C0 glob0 srv_read_only iso0 1000
              "output" "site" false (start fs_pages) in
  let todo := List.filter (qualifies false (cutoff C0 (fs (start fs_pages)))
                             (fs (start fs_pages)))
                          (candidates glob0 (fs (start fs_pages)) "output") in
  rw.1 = Ok 2%nat ∧
  opened (new_events (start fs_pages) rw.2) = todo ∧ 2%nat = length todo.
Proof.
  assert ((check_and_upload_files C0 glob0 srv_read_only iso0 1000
             "output" "site" false (start fs_pages)).1 = Ok 2%nat) as H1
    by (vm_compute; reflexivity).
  split; [exact H1|].
  exact (X10_returning_run_uploads_in_manifest_order C0 glob0 srv_read_only
           iso0 1000 "output" "site" false (start fs_pages) 2%nat H1).
Defined.

Lemma X12_chmod_uses_manifest_permissions_witness :
  let rw := check_and_upload_files C0 glob0 srv_ok iso0 1000
              "output" "site" false (start fs_pages) in
  EvFtp (Sendcmd "SITE CHMOD 664 about.html")
        (Resp "200 SITE CHMOD command ok.") ∈ new_events (start fs_pages) rw.2 ∧
  ∃ sub spec perm path,
    (sub, spec, perm) ∈ SUB_PATHS ∧
    path ∈ glob0 (fs (start fs_pages)) (posixpath.join "output" [sub; spec]) ∧
    "SITE CHMOD 664 about.html" =
      "SITE CHMOD " +:+ pretty perm +:+ " " +:+ posixpath.basename path ∧
    (perm = 644 ∨ perm = 664).
Proof.
  assert (EvFtp (Sendcmd "SITE CHMOD 664 about.html")
            (Resp "200 SITE CHMOD command ok.")
          ∈ new_events (start fs_pages)
              (check_and_upload_files C0 glob0 srv_ok iso0 1000
                 "output" "site" false (start fs_pages)).2) as H1
    by (apply list_elem_of_In; vm_compute; tauto).
  split; [exact H1|].
  exact (X12_chmod_uses_manifest_permissions C0 glob0 srv_ok iso0 1000
           "output" "site" false (start fs_pages) _ _ H1).
Defined.

Lemma X14_session_is_closed_witness :
  let rw := check_and_upload_files C0 glob0 srv_drop iso0 1000
              "output" "site" false (start fs_pages) in
  let login := EvFtp (Connect (SERVER C0) (USER C0) (PSWRD C0))
                     (Resp "230 Login successful.") in
  head (new_events (start fs_pages) rw.2) = Some login ∧
  ∃ inner q tail,
    new_events (start fs_pages) rw.2 = login :: inner ++ EvFtp Quit q :: tail ∧
    Forall (λ e, is_upload_event e = true) inner ∧
    (tail = [] ∨ tail = [EvTouch (LAST_UPDATE_FILENAME C0) 1000]).
Proof.
  assert (head (new_events (start fs_pages)
            (check_and_upload_files C0 glob0 srv_drop iso0 1000
               "output" "site" false (start fs_pages)).2)
          = Some (EvFtp (Connect (SERVER C0) (USER C0) (PSWRD C0))
                        (Resp "230 Login successful."))) as H1
    by (vm_compute; reflexivity).
  split; [exact H1|].
  exact (X14_session_is_closed C0 glob0 srv_drop iso0 1000
           "output" "site" false (start fs_pages) _ H1).
Defined.

Lemma X15_refused_login_sends_nothing_else_witness :
  let rw := check_and_upload_files C0 glob0 srv_no_login iso0 1000
              "output" "site" false (start fs_pages) in
  let login := Connect (SERVER C0) (USER C0) (PSWRD C0) in
  iso0 (cutoff C0 (fs (start fs_pages))) = Some "0" ∧
  srv_no_login (calls_of (events (start fs_pages))) login
    = Fail FtplibError "530 Login incorrect." ∧
  rw.1 = Raise (Exn FtplibError "530 Login incorrect.") ∧
  new_events (start fs_pages) rw.2
    = [EvFtp login (Fail FtplibError "530 Login incorrect.")] ∧
  fs rw.2 = fs (start fs_pages).
Proof.
  assert (iso0 (cutoff C0 (fs (start fs_pages))) = Some "0") as H1
    by (vm_compute; reflexivity).
  assert (srv_no_login (calls_of (events (start fs_pages)))
            (Connect (SERVER C0) (USER C0) (PSWRD C0))
          = Fail FtplibError "530 Login incorrect.") as H2 by reflexivity.
  split; [exact H1|]. split; [exact H2|].
  exact (X15_refused_login_sends_nothing_else C0 glob0 srv_no_login iso0 1000
           "output" "site" false (start fs_pages) _ _ _ H1 H2).
Defined.

Lemma X16_failed_quit_ends_the_run_witness :
  let rw := check_and_upload_files C0 glob0 srv_bad_quit iso0 1000
              "output" "site" false (start fs_pages) in
  iso0 (cutoff C0 (fs (start fs_pages))) = Some "0" ∧
  srv_bad_quit (calls_of (events (start fs_pages)))
    (Connect (SERVER C0) (USER C0) (PSWRD C0)) = Resp "230 Login successful." ∧
  (∀ h, srv_bad_quit h Quit = Fail FtplibError "500 Unknown command.") ∧
  rw.1 = Raise (Exn FtplibError "500 Unknown command.") ∧
  fs rw.2 = fs (start fs_pages).
Proof.
  assert (iso0 (cutoff C0 (fs (start fs_pages))) = Some "0") as H1
    by (vm_compute; reflexivity).
  assert (srv_bad_quit (calls_of (events (start fs_pages)))
            (Connect (SERVER C0) (USER C0) (PSWRD C0))
          = Resp "230 Login successful.") as H2 by reflexivity.
  assert (∀ h, srv_bad_quit h Quit = Fail FtplibError "500 Unknown command.")
    as H3 by reflexivity.
  split; [exact H1|]. split; [exact H2|]. split; [exact H3|].
  exact (X16_failed_quit_ends_the_run C0 glob0 srv_bad_quit iso0 1000
           "output" "site" false (start fs_pages) _ _ _ H1 H2 H3).
Defined.

Lemma X17_unreadable_candidate_aborts_the_run_witness :
  let rw := check_and_upload_files C0 glob0 srv_ok iso0 1000
              "output" "site" false (start fs_pages) in
  rw.1 = Ok 2%nat ∧
  ∀ p, p ∈ candidates glob0 (fs (start fs_pages)) "output" →
       is_Some (fs (start fs_pages) !! p).
Proof.
  assert ((check_and_upload_files C0 glob0 srv_ok iso0 1000
             "output" "site" false (start fs_pages)).1 = Ok 2%nat) as H1
    by (vm_compute; reflexivity).
  split; [exact H1|].
  exact (X17_unreadable_candidate_aborts_the_run C0 glob0 srv_ok iso0 1000
           "output" "site" (start fs_pages) 2%nat H1).
Defined.

Lemma X18_every_cwd_is_absolute_witness :
  let rw := check_and_upload_files C0 glob0 srv_ok iso0 1000
              "output" "site" false (start fs_pages) in
  EvFtp (Cwd "/site/") (Resp "250 Directory successfully changed.")
    ∈ new_events (start fs_pages) rw.2 ∧
  posixpath.startswith "/site/" "/" = true.
Proof.
  assert (EvFtp (Cwd "/site/") (Resp "250 Directory successfully changed.")
          ∈ new_events (start fs_pages)
              (check_and_upload_files C0 glob0 srv_ok iso0 1000
                 "output" "site" false (start fs_pages)).2) as H1
    by (apply list_elem_of_In; vm_compute; tauto).
  split; [exact H1|].
  exact (X18_every_cwd_is_absolute C0 glob0 srv_ok iso0 1000
           "output" "site" false (start fs_pages) _ _ H1).
Defined.

Lemma X20_second_run_is_idle_witness :
  let rw := check_and_upload_files C0 glob0 srv_ok iso0 1000
              "output" "site" false (start fs_pages) in
  let rw' := check_and_upload_files C0 glob0 srv_ok iso0 2000
               "output" "site" false rw.2 in
  rw.1 = Ok 2%nat ∧ (0 < 2)%nat ∧
  (∀ p x, fs (start fs_pages) !! p = Some x → mtime x ≤ 1000) ∧
  opened (new_events rw.2 rw'.2) = [] ∧ stored (new_events rw.2 rw'.2) = 0%nat ∧
  fs rw'.2 = fs rw.2 ∧ ∀ c', rw'.1 = Ok c' → c' = 0%nat.
Proof.
  assert ((check_and_upload_files C0 glob0 srv_ok iso0 1000
             "output" "site" false (start fs_pages)).1 = Ok 2%nat) as H1
    by (vm_compute; reflexivity).
  assert (0 < 2)%nat as H2 by lia.
  assert (∀ p x, fs (start fs_pages) !! p = Some x → mtime x ≤ 1000) as H3.
  { apply (bool_decide_unpack
             (map_Forall (λ _ x, mtime x ≤ 1000) (fs (start fs_pages)))).
    vm_compute. exact I. }
  split; [exact H1|]. split; [exact H2|]. split; [exact H3|].
  exact (X20_second_run_is_idle C0 glob0 glob0 srv_ok srv_ok iso0 iso0 1000 2000
           "output" "site" "output" "site" false (start fs_pages) 2%nat
           H1 H2 H3).
Defined.
